(** * Tigo MCP server: health classification and maintenance scoring

    A shallow embedding of the decision logic of the two servers of the
    repository:

    - [Package]    is [src/tigo_mcp_server/server.py] (the packaged server,
                   whose tools return dictionaries and re-raise);
    - [Standalone] is the top-level [server.py] (whose tools return JSON
                   text and turn every exception into an error document).

    Numbers.  A Python [int] is a [Z].  A number that may be a [float]
    (a power, an efficiency, a threshold) is a [Q]: every finite float is a
    rational, and Python compares numbers by exact value, so every
    comparison below is the comparison the interpreter performs.  The one
    place where arithmetic is done on such numbers, the instantaneous
    efficiency [current / rating * 100], goes through the interface
    [FloatArith] of the two float operations, so that what is proved holds
    for the rounded division and multiplication of the interpreter;
    [binary64] is their executable instance.  NaN and the infinities are
    not represented. *)

From Stdlib Require Import ZArith QArith Qabs List String Ascii Bool Lia.
From Stdlib Require Import DecimalString DecimalPos DecimalZ.
Import ListNotations.

Set Warnings "-register-all".

Open Scope string_scope.
Open Scope list_scope.
Open Scope Z_scope.

(** ** Python idioms shared by both servers *)

(** [d.get(key, default)]: a key that is absent is [None]. *)
Definition get {A : Type} (field : option A) (default : A) : A :=
  match field with
  | Some v => v
  | None => default
  end.

(** [x < y] on numbers. *)
Definition Qltb (x y : Q) : bool := negb (Qle_bool y x).

(** [str(n)] and [f"{n}"] for an [int]. *)
Definition str_int (n : Z) : string := NilZero.string_of_int (Z.to_int n).

(** [xs[:n]] *)
Definition slice_to {A : Type} (n : nat) (xs : list A) : list A := firstn n xs.

(** [len(xs)] *)
Definition len {A : Type} (xs : list A) : Z := Z.of_nat (List.length xs).

(** How the interpreter writes a float into an f-string: [f"{x:.1f}"] and
    [f"{x}"].  The text of a float is no part of any decision; the two
    renderings are an interface that the message-building code is
    parametrised by. *)
Class FloatText := {
  format_1f : Q -> string;
  str_float : Q -> string
}.

(** [f"{x:.1f}"] on the exact value of a finite float: one decimal, the
    tenths rounded half to even. *)
Definition round_half_even (x : Q) : Z :=
  let n := Qnum x in
  let d := Z.pos (Qden x) in
  let fl := n / d in
  let r := n mod d in
  match (2 * r ?= d) with
  | Lt => fl
  | Gt => fl + 1
  | Eq => if Z.even fl then fl else fl + 1
  end.

Definition fixed_1f (x : Q) : string :=
  let tenths := round_half_even (Qabs x * 10)%Q in
  ((if Qltb x 0 then "-" else "")
   ++ str_int (tenths / 10) ++ "." ++ str_int (tenths mod 10))%string.

(** A rendering to run the servers on floats with at most one decimal
    (85.0, 62.5), where [str] and [.1f] write the same text. *)
Definition one_decimal_text : FloatText :=
  {| format_1f := fixed_1f; str_float := fixed_1f |}.

(** The float arithmetic of the efficiency formula: [x / y] and [x * y]
    on numbers, each the float that the interpreter computes.  The code
    is parametrised by the two operations; nothing is assumed of them. *)
Class FloatArith := {
  float_div : Q -> Q -> Q;
  float_mul : Q -> Q -> Q
}.

(** The binary64 float nearest to a rational, ties to even: 53 bits of
    mantissa, exponents from -1074 up.  A result beyond the largest
    float, which the interpreter turns into an infinity, is outside the
    model. *)
Definition floor_log2 (x : Q) : Z :=
  let k := Z.log2 (Qnum x) - Z.log2 (Z.pos (Qden x)) in
  if Qle_bool (2 ^ k) x then k else k - 1.

Definition round_binary64 (x : Q) : Q :=
  if Qeq_bool x 0 then 0%Q
  else
    let a := Qabs x in
    let e := Z.max (floor_log2 a - 52) (-1074) in
    let m := round_half_even (a / 2 ^ e)%Q in
    let v := Qred (inject_Z m * 2 ^ e)%Q in
    if Qltb x 0 then (- v)%Q else v.

(** IEEE 754 division and multiplication: the exact result, rounded. *)
Definition binary64 : FloatArith :=
  {| float_div := fun x y => round_binary64 (x / y);
     float_mul := fun x y => round_binary64 (x * y) |}.

Lemma Qltb_lt (x y : Q) : Qltb x y = true <-> (x < y)%Q.
Proof.
  unfold Qltb. rewrite negb_true_iff. split.
  - intros H. apply Qnot_le_lt. intros Hle.
    apply Qle_bool_iff in Hle. congruence.
  - intros H. destruct (Qle_bool y x) eqn:E; [|reflexivity].
    apply Qle_bool_iff in E. exfalso. exact (Qlt_not_le _ _ H E).
Qed.

Lemma Qltb_ge (x y : Q) : Qltb x y = false <-> (y <= x)%Q.
Proof.
  unfold Qltb. rewrite negb_false_iff. apply Qle_bool_iff.
Qed.

Lemma Qltb_trans (x y z : Q) :
  Qltb x y = true -> Qltb y z = true -> Qltb x z = true.
Proof.
  rewrite !Qltb_lt. apply Qlt_trans.
Qed.

Lemma len_nonneg {A : Type} (xs : list A) : 0 <= len xs.
Proof. unfold len. lia. Qed.

Lemma len_nil_iff {A : Type} (xs : list A) : len xs = 0 <-> xs = [].
Proof.
  unfold len. destruct xs; simpl; split; intros H; try reflexivity;
    try discriminate; lia.
Qed.

(** * The packaged server, [src/tigo_mcp_server/server.py] *)

Module Package.

(** The entry of [client.get_systems()["systems"]] for the system at hand;
    a field is [None] when its key is absent. *)
Record system_info := {
  recent_alerts_count : option Z;
  power_rating : option Q;
  status : option string
}.

(** [client.get_system_summary(system_id)] *)
Record summary := {
  last_power_dc : option Q
}.

Record health_metrics := {
  active_alerts : Z;
  efficiency_percent : Q;
  system_status : string
}.

Record efficiency_analysis := {
  rated_power_dc : Q;
  current_power_dc : Q;
  analysis_efficiency_percent : Q
}.

Record health_result := {
  system_id : Z;
  timestamp : string;
  overall_health : string;
  metrics : health_metrics;
  recommendations : list string;
  details_summary : summary;
  details_recent_alerts : list string;
  details_efficiency_analysis : efficiency_analysis
}.

(** [(current_power / power_rating * 100) if power_rating > 0 else 0],
    written out in [get_system_health] and in [get_maintenance_insights]. *)
Definition simple_efficiency {arith : FloatArith}
    (current_power power_rating : Q) : Q :=
  if Qltb 0 power_rating
  then float_mul (float_div current_power power_rating) 100
  else 0%Q.

(** Python's [x / y] on numbers: [None] is the ZeroDivisionError of a
    zero divisor. *)
Definition truediv {arith : FloatArith} (x y : Q) : option Q :=
  if Qeq_bool y 0 then None else Some (float_div x y).

(** The same expression with the division that can fail: what the
    interpreter evaluates, step by step. *)
Definition checked_efficiency {arith : FloatArith}
    (current_power power_rating : Q) : option Q :=
  if Qltb 0 power_rating
  then match truediv current_power power_rating with
       | Some quotient => Some (float_mul quotient 100)
       | None => None
       end
  else Some 0%Q.

Definition msg_efficiency_low : string :=
  "System efficiency is below optimal - consider maintenance check".

Definition msg_address_alerts (active_alerts : Z) : string :=
  ("Address " ++ str_int active_alerts ++ " active alerts")%string.

Definition msg_performing_well : string := "System is performing well".

(** [get_system_health], from "Calculate basic health metrics" to the
    result dictionary; [now] is [datetime.now().isoformat()]. *)
Definition get_system_health {arith : FloatArith}
    (sid : Z) (now : string) (info : system_info) (summ : summary)
    : health_result :=
  let active_alerts := get (recent_alerts_count info) 0 in
  let power_rating := get (power_rating info) 1%Q in
  let current_power := get (last_power_dc summ) 0%Q in
  let efficiency_percent := simple_efficiency current_power power_rating in
  let overall_health :=
    if (active_alerts =? 0) && Qltb 80 efficiency_percent then "Excellent"
    else if (active_alerts =? 0) && Qltb 60 efficiency_percent then "Good"
    else if (active_alerts <=? 2) && Qltb 40 efficiency_percent then "Fair"
    else "Needs Attention" in
  let recommendations := [] in
  let recommendations :=
    if Qltb efficiency_percent 60
    then recommendations ++ [msg_efficiency_low] else recommendations in
  let recommendations :=
    if active_alerts >? 0
    then recommendations ++ [msg_address_alerts active_alerts]
    else recommendations in
  let recommendations :=
    match recommendations with
    | [] => recommendations ++ [msg_performing_well]
    | _ :: _ => recommendations
    end in
  {| system_id := sid;
     timestamp := now;
     overall_health := overall_health;
     metrics := {| active_alerts := active_alerts;
                   efficiency_percent := efficiency_percent;
                   system_status := get (status info) "Unknown" |};
     recommendations := recommendations;
     details_summary := summ;
     details_recent_alerts := [];
     details_efficiency_analysis :=
       {| rated_power_dc := power_rating;
          current_power_dc := current_power;
          analysis_efficiency_percent := efficiency_percent |} |}.

(** *** The classification table of the specification

    "Evaluated top-to-bottom, first match wins": an ordered list of
    (condition on the alert count, condition on the efficiency, status)
    and the status of the first row both of whose conditions hold. *)

Definition health_rule : Type := ((Z -> bool) * (Q -> bool) * string)%type.

Definition classify_health_table : list health_rule :=
  [ (fun a => a =? 0,  fun e => Qltb 80 e, "Excellent");
    (fun a => a =? 0,  fun e => Qltb 60 e, "Good");
    (fun a => a <=? 2, fun e => Qltb 40 e, "Fair") ].

Fixpoint first_match (rules : list health_rule) (otherwise : string)
    (alerts : Z) (efficiency : Q) : string :=
  match rules with
  | [] => otherwise
  | (on_alerts, on_efficiency, result) :: rest =>
      if on_alerts alerts && on_efficiency efficiency then result
      else first_match rest otherwise alerts efficiency
  end.

Definition classify_health_spec (alerts : Z) (efficiency : Q) : string :=
  first_match classify_health_table "Needs Attention" alerts efficiency.

(** [get_maintenance_insights] of the packaged server *)

Record recommendation := {
  priority : string;
  component : string;
  issue : string;
  action : string;
  estimated_impact : string
}.

Record insights_summary := {
  total_recommendations : Z;
  high_priority : Z;
  medium_priority : Z;
  low_priority : Z
}.

Record insights_result := {
  insights_system_id : Z;
  insights_timestamp : string;
  threshold_percent : Q;
  current_efficiency : Q;
  insights_recommendations : list recommendation;
  insights_summary_of : insights_summary;
  next_actions : list string
}.

Definition solar_array_item `{FloatText} (efficiency threshold : Q)
    : recommendation :=
  {| priority := "High";
     component := "Solar Array";
     issue := ("System efficiency (" ++ format_1f efficiency
               ++ "%) below threshold (" ++ str_float threshold ++ "%)")%string;
     action := "Schedule inspection and cleaning";
     estimated_impact := "5-15% efficiency improvement" |}.

Definition system_monitoring_item (active_alerts : Z) : recommendation :=
  {| priority := "Medium";
     component := "System Monitoring";
     issue := (str_int active_alerts ++ " active alerts detected")%string;
     action := "Review and address system alerts";
     estimated_impact := "Improved system reliability" |}.

Definition preventive_item : recommendation :=
  {| priority := "Low";
     component := "Preventive Maintenance";
     issue := "System performing within normal parameters";
     action := "Schedule routine maintenance check";
     estimated_impact := "Continued optimal performance" |}.

(** [len([r for r in recommendations if r["priority"] == p])] *)
Definition count_priority (p : string) (recs : list recommendation) : Z :=
  len (filter (fun r => String.eqb (priority r) p) recs).

(** [get_maintenance_insights], from "Generate maintenance
    recommendations" to the result dictionary. *)
Definition get_maintenance_insights `{FloatText} {arith : FloatArith}
    (sid : Z) (now : string) (info : system_info) (summ : summary)
    (threshold : Q) : insights_result :=
  let recommendations := [] in
  let power_rating := get (power_rating info) 1%Q in
  let current_power := get (last_power_dc summ) 0%Q in
  let efficiency := simple_efficiency current_power power_rating in
  let recommendations :=
    if Qltb efficiency threshold
    then recommendations ++ [solar_array_item efficiency threshold]
    else recommendations in
  let active_alerts := get (recent_alerts_count info) 0 in
  let recommendations :=
    if active_alerts >? 0
    then recommendations ++ [system_monitoring_item active_alerts]
    else recommendations in
  let recommendations :=
    match recommendations with
    | [] => recommendations ++ [preventive_item]
    | _ :: _ => recommendations
    end in
  {| insights_system_id := sid;
     insights_timestamp := now;
     threshold_percent := threshold;
     current_efficiency := efficiency;
     insights_recommendations := recommendations;
     insights_summary_of :=
       {| total_recommendations := len recommendations;
          high_priority := count_priority "High" recommendations;
          medium_priority := count_priority "Medium" recommendations;
          low_priority := count_priority "Low" recommendations |};
     next_actions := map action (slice_to 3 recommendations) |}.

(** The recommendation list before the fallback is added: what the two
    condition-specific tests of [get_system_health] leave behind. *)
Definition specific_recommendations (alerts : Z) (efficiency : Q)
    : list string :=
  (if Qltb efficiency 60 then [msg_efficiency_low] else [])
  ++ (if alerts >? 0 then [msg_address_alerts alerts] else []).

(** *** Facts about the health classifier *)

Lemma to_int_not_nil (n : Z) :
  Z.to_int n <> Decimal.Pos Decimal.Nil /\ Z.to_int n <> Decimal.Neg Decimal.Nil.
Proof.
  destruct n as [|p|p]; simpl; split; try discriminate;
    intros Heq; injection Heq as Heq;
    exact (DecimalPos.Unsigned.to_uint_nonnil p Heq).
Qed.

Lemma str_int_inj (m n : Z) : str_int m = str_int n -> m = n.
Proof.
  unfold str_int. intros Heq.
  destruct (to_int_not_nil m) as [Hm1 Hm2].
  destruct (to_int_not_nil n) as [Hn1 Hn2].
  pose proof (NilZero.isi (Z.to_int m) Hm1 Hm2) as Hm.
  pose proof (NilZero.isi (Z.to_int n) Hn1 Hn2) as Hn.
  rewrite Heq in Hm. rewrite Hm in Hn. injection Hn as Hn.
  apply DecimalZ.to_int_inj. exact Hn.
Qed.

Lemma msg_address_alerts_inj (m n : Z) :
  msg_address_alerts m = msg_address_alerts n -> m = n.
Proof.
  unfold msg_address_alerts. intros Heq.
  apply str_int_inj.
  assert (Hprefix : forall a b c : string,
            (a ++ b = a ++ c)%string -> b = c).
  { induction a as [|ch a IH]; simpl; intros b c Hbc; [exact Hbc|].
    injection Hbc as Hbc. apply IH. exact Hbc. }
  apply Hprefix in Heq.
  assert (Hsuffix : forall b c a : string,
            String.length b = String.length c ->
            (b ++ a = c ++ a)%string -> b = c).
  { induction b as [|ch b IH]; destruct c as [|ch' c]; simpl;
      intros a Hlen Hbc; try discriminate Hlen; [reflexivity|].
    injection Hbc as -> Hbc. f_equal. apply (IH c a); [lia | exact Hbc]. }
  assert (Hlength : forall a b : string,
            String.length (a ++ b) = (String.length a + String.length b)%nat).
  { induction a as [|ch a IH]; simpl; intros b; [reflexivity|].
    rewrite IH. reflexivity. }
  apply (Hsuffix _ _ " active alerts"); [|exact Heq].
  apply (f_equal String.length) in Heq.
  rewrite !Hlength in Heq. lia.
Qed.

Section Health.

Context {arith : FloatArith}.
Variables (sid : Z) (now : string) (info : system_info) (summ : summary).

Let result := get_system_health sid now info summ.
Let alerts := active_alerts (metrics result).
Let efficiency := efficiency_percent (metrics result).

Lemma health_alerts_eq : alerts = get (recent_alerts_count info) 0.
Proof. reflexivity. Qed.

Lemma health_efficiency_eq :
  efficiency =
  simple_efficiency (get (last_power_dc summ) 0%Q) (get (power_rating info) 1%Q).
Proof. reflexivity. Qed.

Lemma overall_health_eq :
  overall_health result =
  if (alerts =? 0) && Qltb 80 efficiency then "Excellent"
  else if (alerts =? 0) && Qltb 60 efficiency then "Good"
  else if (alerts <=? 2) && Qltb 40 efficiency then "Fair"
  else "Needs Attention".
Proof. reflexivity. Qed.

Lemma recommendations_eq :
  recommendations result =
  match specific_recommendations alerts efficiency with
  | [] => [msg_performing_well]
  | r :: rs => r :: rs
  end.
Proof.
  unfold result, alerts, efficiency, get_system_health,
    specific_recommendations; simpl.
  destruct (Qltb _ 60); destruct (_ >? 0); reflexivity.
Qed.

Lemma status_by_reported_metrics :
  overall_health result = classify_health_spec alerts efficiency
  /\ (alerts = 0 /\ (80 < efficiency)%Q ->
      overall_health result = "Excellent")
  /\ (~ (alerts = 0 /\ (80 < efficiency)%Q) ->
      alerts = 0 /\ (60 < efficiency)%Q ->
      overall_health result = "Good")
  /\ (~ (alerts = 0 /\ (60 < efficiency)%Q) ->
      alerts <= 2 /\ (40 < efficiency)%Q ->
      overall_health result = "Fair")
  /\ (~ (alerts = 0 /\ (60 < efficiency)%Q) ->
      ~ (alerts <= 2 /\ (40 < efficiency)%Q) ->
      overall_health result = "Needs Attention").
Proof.
  rewrite overall_health_eq.
  unfold classify_health_spec, classify_health_table, first_match.
  split; [reflexivity|].
  assert (H68 : (60 < 80)%Q) by reflexivity.
  assert (H46 : (40 < 60)%Q) by reflexivity.
  destruct (Z.eqb_spec alerts 0) as [Ea|Ea];
  destruct (Z.leb_spec alerts 2) as [Eb|Eb];
  destruct (Qltb 80 efficiency) eqn:E80;
  destruct (Qltb 60 efficiency) eqn:E60;
  destruct (Qltb 40 efficiency) eqn:E40;
  rewrite ?Qltb_lt, ?Qltb_ge in *;
  simpl; repeat split; intros; try reflexivity; exfalso;
  repeat match goal with
  | H : _ /\ _ |- _ => destruct H
  end;
  try lia;
  try (match goal with H : ~ _ |- _ => apply H; split; (lia || assumption) end);
  try (apply (Qlt_irrefl efficiency); eauto using Qlt_le_trans, Qle_lt_trans, Qlt_trans).
Qed.

(** C5.  The recommendations of [get_system_health] are never empty:
    when neither condition-specific recommendation was added, the list is
    exactly the positive fallback message. *)
Theorem recommendations_nonempty :
  recommendations result <> []
  /\ (specific_recommendations alerts efficiency = [] ->
      recommendations result = [msg_performing_well]).
Proof.
  rewrite recommendations_eq.
  destruct (specific_recommendations alerts efficiency) as [|r rs].
  - split; [discriminate | reflexivity].
  - split; [discriminate | intros H; discriminate H].
Qed.

Lemma recommendations_by_reported_metrics :
  (In msg_efficiency_low (recommendations result) <-> (efficiency < 60)%Q)
  /\ (In (msg_address_alerts alerts) (recommendations result) <-> alerts > 0)
  /\ recommendations result =
       match
         (if Qltb efficiency 60 then [msg_efficiency_low] else [])
         ++ (if alerts >? 0 then [msg_address_alerts alerts] else [])
       with
       | [] => [msg_performing_well]
       | r :: rs => r :: rs
       end.
Proof.
  rewrite recommendations_eq. unfold specific_recommendations.
  rewrite <- Qltb_lt.
  assert (Ha : msg_address_alerts alerts <> msg_efficiency_low)
    by (unfold msg_address_alerts, msg_efficiency_low; simpl; discriminate).
  assert (Hb : msg_address_alerts alerts <> msg_performing_well)
    by (unfold msg_address_alerts, msg_performing_well; simpl; discriminate).
  assert (Hc : msg_performing_well <> msg_efficiency_low) by discriminate.
  destruct (Qltb efficiency 60); destruct (Z.gtb_spec alerts 0) as [Hp|Hp];
    simpl; repeat split; intros H;
    repeat match goal with
    | H : _ \/ _ |- _ => destruct H
    | H : False |- _ => destruct H
    end;
    try discriminate; try lia; try congruence; auto.
Qed.

End Health.

(** *** The classifier on the snapshot

    The alert count and the efficiency below are what the classifier
    reads from its input: the ["recent_alerts_count"] of the system (0
    when absent) and the efficiency formula on the ["last_power_dc"] of
    the summary (0 when absent) and the ["power_rating"] of the system
    (1 when absent). *)

Section Snapshot.

Context {arith : FloatArith}.
Variables (sid : Z) (now : string) (info : system_info) (summ : summary).

Let alerts := get (recent_alerts_count info) 0.
Let efficiency :=
  simple_efficiency (get (last_power_dc summ) 0%Q) (get (power_rating info) 1%Q).
Let result := get_system_health sid now info summ.

(** C1.  The status of [get_system_health] is the result of reading the
    specification's table top to bottom on the snapshot's alert count and
    efficiency and taking the first row that matches: no alerts and
    efficiency above 80 is Excellent; otherwise no alerts and efficiency
    above 60 is Good; otherwise at most two alerts and efficiency above
    40 is Fair; otherwise Needs Attention.  The metrics of the result
    report the same two numbers. *)
Theorem classify_health_first_match :
  active_alerts (metrics result) = alerts
  /\ efficiency_percent (metrics result) = efficiency
  /\ overall_health result = classify_health_spec alerts efficiency
  /\ (alerts = 0 /\ (80 < efficiency)%Q ->
      overall_health result = "Excellent")
  /\ (~ (alerts = 0 /\ (80 < efficiency)%Q) ->
      alerts = 0 /\ (60 < efficiency)%Q ->
      overall_health result = "Good")
  /\ (~ (alerts = 0 /\ (60 < efficiency)%Q) ->
      alerts <= 2 /\ (40 < efficiency)%Q ->
      overall_health result = "Fair")
  /\ (~ (alerts = 0 /\ (60 < efficiency)%Q) ->
      ~ (alerts <= 2 /\ (40 < efficiency)%Q) ->
      overall_health result = "Needs Attention").
Proof.
  split; [reflexivity|]. split; [reflexivity|].
  exact (status_by_reported_metrics sid now info summ).
Qed.

(** C9.  The low-efficiency recommendation is present exactly when the
    snapshot's efficiency is below 60, the alert recommendation, with the
    snapshot's alert count written into it, exactly when that count is
    positive; the list is a function of these two tests alone, whatever
    the status is. *)
Theorem recommendations_conditions :
  (In msg_efficiency_low (recommendations result) <-> (efficiency < 60)%Q)
  /\ (In (msg_address_alerts alerts) (recommendations result) <-> alerts > 0)
  /\ (forall count,
        In (msg_address_alerts count) (recommendations result) ->
        count = alerts)
  /\ recommendations result =
       match
         (if Qltb efficiency 60 then [msg_efficiency_low] else [])
         ++ (if alerts >? 0 then [msg_address_alerts alerts] else [])
       with
       | [] => [msg_performing_well]
       | r :: rs => r :: rs
       end.
Proof.
  destruct (recommendations_by_reported_metrics sid now info summ)
    as [Hlow [Haddress Hlist]].
  split; [exact Hlow|]. split; [exact Haddress|]. split; [|exact Hlist].
  intros count Hin. fold result in Hlist. rewrite Hlist in Hin.
  apply msg_address_alerts_inj.
  fold alerts. fold efficiency.
  assert (Ha : msg_address_alerts count <> msg_efficiency_low)
    by (unfold msg_address_alerts, msg_efficiency_low; simpl; discriminate).
  assert (Hb : msg_address_alerts count <> msg_performing_well)
    by (unfold msg_address_alerts, msg_performing_well; simpl; discriminate).
  change (active_alerts (metrics result)) with alerts in Hin.
  change (efficiency_percent (metrics result)) with efficiency in Hin.
  destruct (Qltb efficiency 60); destruct (alerts >? 0); simpl in Hin;
    repeat match goal with
    | Hor : _ \/ _ |- _ => destruct Hor
    | Hf : False |- _ => destruct Hf
    end; congruence.
Qed.

End Snapshot.

(** *** The rating that is absent, zero or negative *)

Definition snapshot_info (alerts : Z) (rating : option Q) : system_info :=
  {| recent_alerts_count := Some alerts;
     power_rating := rating;
     status := Some "Active" |}.

Definition snapshot_summary (current : Q) : summary :=
  {| last_power_dc := Some current |}.

Lemma simple_efficiency_no_rating {arith : FloatArith} (current rating : Q) :
  (rating <= 0)%Q -> simple_efficiency current rating = 0%Q.
Proof.
  intros H. unfold simple_efficiency.
  apply Qltb_ge in H. rewrite H. reflexivity.
Qed.

Lemma checked_efficiency_returns {arith : FloatArith} (current rating : Q) :
  checked_efficiency current rating = Some (simple_efficiency current rating).
Proof.
  unfold checked_efficiency, simple_efficiency, truediv.
  destruct (Qltb 0 rating) eqn:Hpositive; [|reflexivity].
  destruct (Qeq_bool rating 0) eqn:Hzero; [|reflexivity].
  apply Qltb_lt in Hpositive. apply Qeq_bool_iff in Hzero.
  rewrite Hzero in Hpositive. discriminate Hpositive.
Qed.

(** C2, as the code has it.  The division is never reached with a zero
    divisor, so the efficiency expression raises no ZeroDivisionError for
    any rating.  A rating that is absent is taken as 1: the efficiency is
    [current / 1 * 100] in float arithmetic, and with no alerts and that
    value above 80 the status is Excellent.  A rating that is present and
    zero or negative is not divided by: the efficiency is 0 and the
    status Needs Attention, whatever the power and the alert count. *)
Theorem degenerate_rating {arith : FloatArith}
    (sid : Z) (now : string) (alerts : Z) (current : Q) :
  (forall rating : option Q,
     checked_efficiency current (get rating 1%Q) =
     Some (efficiency_percent
             (metrics (get_system_health sid now (snapshot_info alerts rating)
                         (snapshot_summary current)))))
  /\ (let r := get_system_health sid now (snapshot_info alerts None)
                 (snapshot_summary current) in
      efficiency_percent (metrics r) = float_mul (float_div current 1) 100
      /\ (alerts = 0 -> (80 < float_mul (float_div current 1) 100)%Q ->
          overall_health r = "Excellent"))
  /\ (forall rating : Q, (rating <= 0)%Q ->
      let r := get_system_health sid now (snapshot_info alerts (Some rating))
                 (snapshot_summary current) in
      efficiency_percent (metrics r) = 0%Q
      /\ overall_health r = "Needs Attention").
Proof.
  split; [intros rating; apply checked_efficiency_returns|].
  split.
  - simpl. split; [reflexivity|].
    intros -> Hhigh. unfold simple_efficiency. simpl.
    apply Qltb_lt in Hhigh. rewrite Hhigh. reflexivity.
  - intros rating H. simpl.
    rewrite (simple_efficiency_no_rating _ _ H).
    split; [reflexivity|].
    destruct (alerts =? 0); destruct (alerts <=? 2); reflexivity.
Qed.

(** The scenario of the specification in binary64 with the rating absent:
    10 W, no alerts, efficiency 1000 percent, Excellent; and with the
    rating zero: efficiency 0. *)
Lemma degenerate_rating_scenario :
  (efficiency_percent
     (metrics (get_system_health (arith := binary64) 1 ""
                 (snapshot_info 0 None) (snapshot_summary 10))) == 1000)%Q
  /\ overall_health
       (get_system_health (arith := binary64) 1 "" (snapshot_info 0 None)
          (snapshot_summary 10)) = "Excellent"
  /\ efficiency_percent
       (metrics (get_system_health (arith := binary64) 1 ""
                   (snapshot_info 0 (Some 0%Q)) (snapshot_summary 10))) = 0%Q.
Proof.
  destruct (degenerate_rating (arith := binary64) 1 "" 0 10)
    as [_ [[Habsent Hstatus] Hzero]].
  split; [|split].
  - rewrite Habsent. vm_compute. reflexivity.
  - apply Hstatus; [reflexivity | vm_compute; reflexivity].
  - apply (Hzero 0%Q). discriminate.
Defined.

(** Rounding decides at the boundary: the float 0.8 with the rating
    absent gives exactly 80.0, which is not above 80, so the status is
    Good. *)
Lemma float_boundary_is_good :
  let r := get_system_health (arith := binary64) 1 "" (snapshot_info 0 None)
             (snapshot_summary (round_binary64 0.8)) in
  (efficiency_percent (metrics r) == 80)%Q /\ overall_health r = "Good".
Proof. vm_compute. split; reflexivity. Qed.

(** The maintenance tool of the package computes its efficiency the same
    way: a rating of zero or less gives 0. *)
Lemma insights_efficiency_no_rating `{FloatText} {arith : FloatArith}
    (sid : Z) (now : string) (alerts : Z) (current rating threshold : Q) :
  (rating <= 0)%Q ->
  current_efficiency
    (get_maintenance_insights sid now (snapshot_info alerts (Some rating))
       (snapshot_summary current) threshold) = 0%Q.
Proof.
  intros Hrating. simpl. apply simple_efficiency_no_rating. exact Hrating.
Qed.

(** C2, as the specification words it, fails: with 10 W, a rating of 0 and
    no alerts the efficiency is 0, not 1000, and the status is Needs
    Attention, not Excellent. *)
Lemma zero_rating_counterexample :
  let r := get_system_health (arith := binary64) 1 ""
             (snapshot_info 0 (Some 0%Q)) (snapshot_summary 10) in
  ~ (efficiency_percent (metrics r) == 1000)%Q
  /\ overall_health r <> "Excellent"
  /\ (efficiency_percent (metrics r) == 0)%Q
  /\ overall_health r = "Needs Attention".
Proof.
  simpl. repeat split; try discriminate.
Qed.

(** *** More about the health classifier of the package *)

(** The statuses from worst to best. *)
Definition health_rank (status_text : string) : Z :=
  if String.eqb status_text "Excellent" then 3
  else if String.eqb status_text "Good" then 2
  else if String.eqb status_text "Fair" then 1
  else 0.

Lemma table_rank_spec (a : Z) (e : Q) :
  0 <= a ->
  let k := health_rank (classify_health_spec a e) in
  0 <= k <= 3
  /\ (1 <= k <-> a <= 2 /\ (40 < e)%Q)
  /\ (2 <= k <-> a = 0 /\ (60 < e)%Q)
  /\ (3 <= k <-> a = 0 /\ (80 < e)%Q).
Proof.
  intros Hnonneg.
  unfold classify_health_spec, classify_health_table, first_match.
  assert (H68 : (60 < 80)%Q) by reflexivity.
  assert (H46 : (40 < 60)%Q) by reflexivity.
  assert (H48 : (40 < 80)%Q) by reflexivity.
  destruct (Z.eqb_spec a 0); destruct (Z.leb_spec a 2);
    destruct (Qltb 80 e) eqn:E80; destruct (Qltb 60 e) eqn:E60;
    destruct (Qltb 40 e) eqn:E40;
    apply Qltb_lt in E80 || apply Qltb_ge in E80;
    apply Qltb_lt in E60 || apply Qltb_ge in E60;
    apply Qltb_lt in E40 || apply Qltb_ge in E40;
    cbn [andb health_rank String.eqb Ascii.eqb Bool.eqb];
    repeat match goal with
    | |- _ /\ _ => split
    | |- _ <-> _ => split; intros Hx
    end;
    repeat match goal with
    | Hc : _ /\ _ |- _ => destruct Hc
    end;
    try lia; try assumption;
    try solve [exfalso; apply (Qlt_irrefl e);
               eauto using Qlt_le_trans, Qle_lt_trans, Qlt_trans].
Qed.

Lemma health_rank_spec {arith : FloatArith}
    (sid : Z) (now : string) (info : system_info) (summ : summary) :
  let r := get_system_health sid now info summ in
  let k := health_rank (overall_health r) in
  0 <= active_alerts (metrics r) ->
  0 <= k <= 3
  /\ (1 <= k <->
      active_alerts (metrics r) <= 2 /\ (40 < efficiency_percent (metrics r))%Q)
  /\ (2 <= k <->
      active_alerts (metrics r) = 0 /\ (60 < efficiency_percent (metrics r))%Q)
  /\ (3 <= k <->
      active_alerts (metrics r) = 0 /\ (80 < efficiency_percent (metrics r))%Q).
Proof.
  intros r k Hnonneg. unfold k.
  change (overall_health r) with
    (classify_health_spec (active_alerts (metrics r))
       (efficiency_percent (metrics r))).
  apply table_rank_spec. exact Hnonneg.
Qed.

Section MoreHealth.

Context {arith : FloatArith}.
Variables (sid : Z) (now : string) (info : system_info) (summ : summary).

Let result := get_system_health sid now info summ.
Let alerts := active_alerts (metrics result).
Let efficiency := efficiency_percent (metrics result).

(** The positive message goes with the good statuses only: it is the
    whole list when the status is Excellent or Good, it is in the list
    exactly when there is no alert and the efficiency is 60 or more, and
    it never accompanies Needs Attention. *)
Theorem fallback_matches_status :
  (overall_health result = "Excellent" \/ overall_health result = "Good" ->
   recommendations result = [msg_performing_well])
  /\ (In msg_performing_well (recommendations result) <->
      alerts <= 0 /\ (60 <= efficiency)%Q)
  /\ (overall_health result = "Needs Attention" ->
      ~ In msg_performing_well (recommendations result)).
Proof.
  unfold result at 1 2 5.
  rewrite overall_health_eq.
  unfold result. rewrite recommendations_eq.
  fold result. fold alerts. fold efficiency.
  unfold specific_recommendations.
  assert (Ha : msg_address_alerts alerts <> msg_performing_well)
    by (unfold msg_address_alerts, msg_performing_well; simpl; discriminate).
  assert (Hb : msg_efficiency_low <> msg_performing_well) by discriminate.
  assert (H46 : (40 < 60)%Q) by reflexivity.
  assert (H68 : (60 < 80)%Q) by reflexivity.
  destruct (Z.eqb_spec alerts 0); destruct (Z.leb_spec alerts 2);
    destruct (Z.gtb_spec alerts 0);
    destruct (Qltb 80 efficiency) eqn:E80;
    destruct (Qltb 60 efficiency) eqn:E60;
    destruct (Qltb 40 efficiency) eqn:E40;
    destruct (Qltb efficiency 60) eqn:E06;
    rewrite ?Qltb_lt, ?Qltb_ge in *; simpl;
    repeat match goal with
    | |- _ /\ _ => split
    | |- _ <-> _ => split; intros Hx
    | |- _ -> _ => intros Hx
    | |- ~ _ => intros Hy
    end;
    repeat match goal with
    | Hc : _ /\ _ |- _ => destruct Hc
    | Hc : _ \/ _ |- _ => destruct Hc
    | Hc : False |- _ => destruct Hc
    end;
    try discriminate; try congruence; try lia; try assumption; auto;
    try solve [exfalso; apply (Qlt_irrefl efficiency);
               eauto using Qlt_le_trans, Qle_lt_trans, Qlt_trans].
Qed.

End MoreHealth.

(** More alerts and less efficiency never improve the status: between
    two snapshots, the one with at least as many alerts (counts being
    non-negative) and at most the efficiency has at most the rank. *)
Theorem health_rank_monotone {arith : FloatArith}
    (sid : Z) (now : string) (better worse : system_info)
    (better_summary worse_summary : summary) :
  let good := get_system_health sid now better better_summary in
  let bad := get_system_health sid now worse worse_summary in
  0 <= active_alerts (metrics good) ->
  active_alerts (metrics good) <= active_alerts (metrics bad) ->
  (efficiency_percent (metrics bad) <= efficiency_percent (metrics good))%Q ->
  health_rank (overall_health bad) <= health_rank (overall_health good).
Proof.
  intros good bad Hnonneg Halerts Hefficiency.
  destruct (health_rank_spec sid now better better_summary Hnonneg)
    as [Hg0 [Hg1 [Hg2 Hg3]]].
  assert (Hnonneg' : 0 <= active_alerts (metrics bad)) by lia.
  destruct (health_rank_spec sid now worse worse_summary Hnonneg')
    as [Hb0 [Hb1 [Hb2 Hb3]]].
  fold good in Hg0, Hg1, Hg2, Hg3. fold bad in Hb0, Hb1, Hb2, Hb3.
  assert (H1 : 1 <= health_rank (overall_health bad) ->
               1 <= health_rank (overall_health good)).
  { intros Hk. apply Hb1 in Hk. destruct Hk as [Hka Hke]. apply Hg1.
    split; [lia | apply (Qlt_le_trans _ _ _ Hke Hefficiency)]. }
  assert (H2 : 2 <= health_rank (overall_health bad) ->
               2 <= health_rank (overall_health good)).
  { intros Hk. apply Hb2 in Hk. destruct Hk as [Hka Hke]. apply Hg2.
    split; [lia | apply (Qlt_le_trans _ _ _ Hke Hefficiency)]. }
  assert (H3 : 3 <= health_rank (overall_health bad) ->
               3 <= health_rank (overall_health good)).
  { intros Hk. apply Hb3 in Hk. destruct Hk as [Hka Hke]. apply Hg3.
    split; [lia | apply (Qlt_le_trans _ _ _ Hke Hefficiency)]. }
  lia.
Qed.

Lemma health_rank_monotone_witness :
  health_rank
    (overall_health
       (get_system_health (arith := binary64) 1 ""
          (snapshot_info 3 (Some 1000%Q)) (snapshot_summary 500)))
  <= health_rank
       (overall_health
          (get_system_health (arith := binary64) 1 ""
             (snapshot_info 0 (Some 1000%Q)) (snapshot_summary 900))).
Proof.
  apply (health_rank_monotone (arith := binary64) 1 ""
           (snapshot_info 0 (Some 1000%Q)) (snapshot_info 3 (Some 1000%Q))
           (snapshot_summary 900) (snapshot_summary 500)).
  - vm_compute. discriminate.
  - vm_compute. discriminate.
  - vm_compute. discriminate.
Defined.

(** *** More about the maintenance tool of the package *)

Section MoreInsights.

Context `{FloatText} {arith : FloatArith}.
Variables (sid : Z) (now : string) (info : system_info) (summ : summary).
Variable threshold : Q.

Let result := get_maintenance_insights sid now info summ threshold.
Let efficiency :=
  simple_efficiency (get (last_power_dc summ) 0%Q) (get (power_rating info) 1%Q).
Let alerts := get (recent_alerts_count info) 0.

Lemma insights_recommendations_eq :
  insights_recommendations result =
  match
    (if Qltb efficiency threshold
     then [solar_array_item efficiency threshold] else [])
    ++ (if alerts >? 0 then [system_monitoring_item alerts] else [])
  with
  | [] => [preventive_item]
  | r :: rs => r :: rs
  end.
Proof.
  unfold result, get_maintenance_insights.
  fold efficiency. fold alerts.
  destruct (Qltb efficiency threshold); destruct (alerts >? 0); reflexivity.
Qed.

(** The summary of the packaged maintenance tool adds up: one or two
    recommendations, each counted under exactly one of High, Medium and
    Low, and an action listed for every one of them. *)
Theorem insights_summary_adds_up :
  total_recommendations (insights_summary_of result) =
    len (insights_recommendations result)
  /\ high_priority (insights_summary_of result)
     + medium_priority (insights_summary_of result)
     + low_priority (insights_summary_of result)
     = total_recommendations (insights_summary_of result)
  /\ 1 <= total_recommendations (insights_summary_of result) <= 2
  /\ next_actions result = map action (insights_recommendations result).
Proof.
  unfold result, get_maintenance_insights.
  destruct (Qltb _ threshold); destruct (_ >? 0);
    cbv zeta; repeat split; try reflexivity; discriminate.
Qed.

(** The Preventive Maintenance entry stands alone and stands for the
    quiet system only: it is in the list exactly when the efficiency is
    not below the threshold and there is no alert, and then it is the
    whole list. *)
Theorem preventive_only_when_quiet :
  (In preventive_item (insights_recommendations result) <->
   (threshold <= efficiency)%Q /\ alerts <= 0)
  /\ (In preventive_item (insights_recommendations result) ->
      insights_recommendations result = [preventive_item])
  /\ (low_priority (insights_summary_of result) = 1 <->
      (threshold <= efficiency)%Q /\ alerts <= 0).
Proof.
  assert (Hlow : low_priority (insights_summary_of result) =
                 count_priority "Low" (insights_recommendations result)).
  { unfold result, get_maintenance_insights.
    destruct (Qltb _ threshold); destruct (_ >? 0); reflexivity. }
  rewrite Hlow, insights_recommendations_eq.
  destruct (Qltb efficiency threshold) eqn:Eband;
    destruct (Z.gtb_spec alerts 0);
    rewrite ?Qltb_lt, ?Qltb_ge in *; simpl;
    repeat match goal with
    | |- _ /\ _ => split
    | |- _ <-> _ => split; intros Hx
    | |- _ -> _ => intros Hx
    end;
    repeat match goal with
    | Hc : _ /\ _ |- _ => destruct Hc
    | Hc : _ \/ _ |- _ => destruct Hc
    | Hc : False |- _ => destruct Hc
    end;
    try discriminate; try lia; try assumption; auto;
    try solve [exfalso; apply (Qlt_irrefl efficiency);
               eauto using Qlt_le_trans, Qle_lt_trans].
Qed.

End MoreInsights.

End Package.

(** * The standalone server, top-level [server.py] *)

Module Standalone.

(** An entry of [client.find_underperforming_panels(...)]. *)
Record panel := {
  panel_id : string
}.

(** [client.calculate_system_efficiency(...)] *)
Record efficiency_metrics := {
  average_efficiency_percent : option Q
}.

(** An entry of [client.get_alerts(system_id)["alerts"]]. *)
Record alert := {
  alert_id : Z;
  status : option string
}.

(** [client.get_alerts(system_id)] *)
Record alerts_response := {
  alerts : option (list alert)
}.

(** An element of [maintenance_items]; [affected_panels] and
    [alert_details] are the keys only some of the items carry. *)
Record maintenance_item := {
  category : string;
  issue : string;
  priority : string;
  recommendation : string;
  affected_panels : option (list string);
  alert_details : option (list alert)
}.

Record insights_summary := {
  total_issues : Z;
  critical_issues : Z;
  system_efficiency : Q;
  underperforming_panels : Z
}.

Record insights := {
  system_id : Z;
  timestamp : string;
  overall_maintenance_priority : string;
  priority_score : Z;
  maintenance_items : list maintenance_item;
  summary : insights_summary;
  next_recommended_action : string
}.

(** [a.get("status") == "active"] *)
Definition is_active (a : alert) : bool :=
  match status a with
  | Some s => String.eqb s "active"
  | None => false
  end.

Definition rec_inspect_panels : string :=
  "Inspect underperforming panels for soiling, shading, or hardware issues".
Definition rec_full_inspection : string :=
  "Schedule comprehensive system inspection and cleaning".
Definition rec_cleaning : string :=
  "Consider panel cleaning and connection inspection".
Definition rec_address_alerts : string :=
  "Address active alerts immediately".
Definition rec_continue_monitoring : string :=
  "System is performing well - continue regular monitoring".

Definition panel_item `{FloatText} (underperforming : list panel)
    (threshold_percent : Q) : maintenance_item :=
  {| category := "Panel Performance";
     issue := (str_int (len underperforming) ++ " panels performing below "
               ++ str_float threshold_percent ++ "%")%string;
     priority := if len underperforming >? 3 then "High" else "Medium";
     recommendation := rec_inspect_panels;
     affected_panels := Some (map panel_id (slice_to 5 underperforming));
     alert_details := None |}.

Definition efficiency_high_item `{FloatText} (avg_efficiency : Q)
    : maintenance_item :=
  {| category := "System Efficiency";
     issue := ("Overall system efficiency at " ++ format_1f avg_efficiency
               ++ "%")%string;
     priority := "High";
     recommendation := rec_full_inspection;
     affected_panels := None;
     alert_details := None |}.

Definition efficiency_medium_item `{FloatText} (avg_efficiency : Q)
    : maintenance_item :=
  {| category := "System Efficiency";
     issue := ("System efficiency below optimal at "
               ++ format_1f avg_efficiency ++ "%")%string;
     priority := "Medium";
     recommendation := rec_cleaning;
     affected_panels := None;
     alert_details := None |}.

Definition alerts_item (active_alerts : list alert) : maintenance_item :=
  {| category := "System Alerts";
     issue := (str_int (len active_alerts) ++ " active system alerts")%string;
     priority := "High";
     recommendation := rec_address_alerts;
     affected_panels := None;
     alert_details := Some (slice_to 3 active_alerts) |}.

(** [get_maintenance_insights], from [maintenance_items = []] to
    [response_data]; the pair threaded through the three analyses is
    ([maintenance_items], [priority_score]), and [now] is
    [datetime.now().isoformat()]. *)
Definition get_maintenance_insights `{FloatText}
    (sid : Z) (now : string) (threshold_percent : Q)
    (underperforming : list panel) (efficiency : efficiency_metrics)
    (alerts_data : alerts_response) : insights :=
  let maintenance_items := [] in
  let priority_score := 0 in
  (* Analyze underperforming panels *)
  let '(maintenance_items, priority_score) :=
    if len underperforming >? 0
    then (maintenance_items ++ [panel_item underperforming threshold_percent],
          priority_score + len underperforming * 10)
    else (maintenance_items, priority_score) in
  (* Analyze system efficiency *)
  let avg_efficiency := get (average_efficiency_percent efficiency) 100%Q in
  let '(maintenance_items, priority_score) :=
    if Qltb avg_efficiency 70
    then (maintenance_items ++ [efficiency_high_item avg_efficiency],
          priority_score + 50)
    else if Qltb avg_efficiency 85
    then (maintenance_items ++ [efficiency_medium_item avg_efficiency],
          priority_score + 25)
    else (maintenance_items, priority_score) in
  (* Analyze alerts *)
  let active_alerts := filter is_active (get (alerts alerts_data) []) in
  let '(maintenance_items, priority_score) :=
    if len active_alerts >? 0
    then (maintenance_items ++ [alerts_item active_alerts],
          priority_score + len active_alerts * 15)
    else (maintenance_items, priority_score) in
  (* Determine overall maintenance priority *)
  let overall_priority :=
    if priority_score >? 100 then "Critical"
    else if priority_score >? 50 then "High"
    else if priority_score >? 25 then "Medium"
    else "Low" in
  {| system_id := sid;
     timestamp := now;
     overall_maintenance_priority := overall_priority;
     priority_score := priority_score;
     maintenance_items := maintenance_items;
     summary :=
       {| total_issues := len maintenance_items;
          critical_issues :=
            len (filter (fun item => String.eqb (priority item) "High")
                   maintenance_items);
          system_efficiency := avg_efficiency;
          underperforming_panels := len underperforming |};
     next_recommended_action :=
       match maintenance_items with
       | first :: _ => recommendation first
       | [] => rec_continue_monitoring
       end |}.

(** [get_system_health] of [server.py], from "Determine overall health
    status" to [response_data]: the windowed efficiency of the client and
    the count of all alerts, with thresholds of its own. *)

Record health_response := {
  health_system_id : Z;
  health_timestamp : string;
  overall_health : string;
  health_active_alerts : Z;
  health_efficiency_percent : Q;
  health_system_status : string;
  recommendations : list string;
  health_recent_alerts : list alert
}.

Definition get_system_health
    (sid : Z) (now : string) (summary_status : option string)
    (alerts_data : alerts_response) (efficiency : efficiency_metrics)
    : health_response :=
  let alert_count := len (get (alerts alerts_data) []) in
  let efficiency_percent := get (average_efficiency_percent efficiency) 0%Q in
  let health_status :=
    if (alert_count =? 0) && Qltb 80 efficiency_percent then "Excellent"
    else if (alert_count <=? 2) && Qltb 70 efficiency_percent then "Good"
    else if (alert_count <=? 5) && Qltb 60 efficiency_percent then "Fair"
    else "Needs Attention" in
  let recommendations := [] in
  let recommendations :=
    if alert_count >? 0
    then recommendations ++ ["Review and address active system alerts"]
    else recommendations in
  let recommendations :=
    if Qltb efficiency_percent 70
    then recommendations
         ++ ["System efficiency is below optimal - consider maintenance check"]
    else recommendations in
  let recommendations :=
    if String.eqb health_status "Excellent"
    then recommendations ++ ["System is performing optimally"]
    else recommendations in
  {| health_system_id := sid;
     health_timestamp := now;
     overall_health := health_status;
     health_active_alerts := alert_count;
     health_efficiency_percent := efficiency_percent;
     health_system_status := get summary_status "Unknown";
     recommendations := recommendations;
     health_recent_alerts := slice_to 3 (get (alerts alerts_data) []) |}.

(** *** The tools and their error handling

    Every tool of [server.py] has one shape: a [try] block that talks to
    the Tigo client, builds [response_data] and returns
    [safe_json_response(response_data)], and an [except Exception as e]
    that returns [safe_json_response({"error": f"...: {str(e)}"})].
    Exceptions are modelled by an error monad; an [exception] is an
    instance of Python's [Exception], the class the handlers name. *)

Record exception := {
  exc_class : string;
  exc_message : string
}.

(** [str(e)] *)
Definition str_exc (e : exception) : string := exc_message e.

Inductive outcome (A : Type) : Type :=
| Returned (value : A)
| Raised (e : exception).

Arguments Returned {A} value.
Arguments Raised {A} e.

Definition bind {A B : Type} (m : outcome A) (k : A -> outcome B)
    : outcome B :=
  match m with
  | Returned a => k a
  | Raised e => Raised e
  end.

(** [try: body  except Exception as e: handler(e)] *)
Definition try_except {A : Type} (body : outcome A)
    (handler : exception -> outcome A) : outcome A :=
  match body with
  | Returned a => Returned a
  | Raised e => handler e
  end.

(** The values handed to [json.dumps].  [PyObject] is any object the
    encoder does not know (a numpy number, a Timestamp): its class name
    and what [str] of it gives. *)
Inductive pyobj : Type :=
| PyNone
| PyBool (b : bool)
| PyInt (n : Z)
| PyFloat (x : Q)
| PyStr (s : string)
| PyList (items : list pyobj)
| PyDict (entries : list (pyobj * pyobj))
| PyObject (class_name : string) (text : outcome string).

(** The document [json.dumps] writes; its text, indented by two spaces,
    is the string the tools return. *)
Inductive json : Type :=
| JNull
| JBool (b : bool)
| JInt (n : Z)
| JFloat (x : Q)
| JString (s : string)
| JArray (items : list json)
| JObject (members : list (string * json)).

Definition type_name (o : pyobj) : string :=
  match o with
  | PyNone => "NoneType"
  | PyBool _ => "bool"
  | PyInt _ => "int"
  | PyFloat _ => "float"
  | PyStr _ => "str"
  | PyList _ => "list"
  | PyDict _ => "dict"
  | PyObject class_name _ => class_name
  end.

Definition TypeError (message : string) : exception :=
  {| exc_class := "TypeError"; exc_message := message |}.

(** The encoder's treatment of a dictionary key. *)
Definition key_text `{FloatText} (k : pyobj) : outcome string :=
  match k with
  | PyStr s => Returned s
  | PyInt n => Returned (str_int n)
  | PyFloat x => Returned (str_float x)
  | PyBool true => Returned "true"
  | PyBool false => Returned "false"
  | PyNone => Returned "null"
  | _ => Raised (TypeError
           ("keys must be str, int, float, bool or None, not "
            ++ type_name k)%string)
  end.

(** [json.dumps(data, indent=2, default=str)] when [use_str] is set and
    [json.dumps(data, indent=2)] when it is not. *)
Fixpoint json_dumps `{FloatText} (use_str : bool) (data : pyobj)
    : outcome json :=
  match data with
  | PyNone => Returned JNull
  | PyBool b => Returned (JBool b)
  | PyInt n => Returned (JInt n)
  | PyFloat x => Returned (JFloat x)
  | PyStr s => Returned (JString s)
  | PyList items =>
      bind
        ((fix each (xs : list pyobj) : outcome (list json) :=
            match xs with
            | [] => Returned []
            | x :: rest =>
                bind (json_dumps use_str x) (fun j =>
                bind (each rest) (fun js => Returned (j :: js)))
            end) items)
        (fun js => Returned (JArray js))
  | PyDict entries =>
      bind
        ((fix each (xs : list (pyobj * pyobj))
            : outcome (list (string * json)) :=
            match xs with
            | [] => Returned []
            | (k, v) :: rest =>
                bind (key_text k) (fun name =>
                bind (json_dumps use_str v) (fun j =>
                bind (each rest) (fun js => Returned ((name, j) :: js))))
            end) entries)
        (fun members => Returned (JObject members))
  | PyObject class_name text =>
      if use_str
      then bind text (fun s => Returned (JString s))
      else Raised (TypeError
             ("Object of type " ++ class_name
              ++ " is not JSON serializable")%string)
  end.

(** [{"error": message}] *)
Definition error_dict (message : string) : pyobj :=
  PyDict [(PyStr "error", PyStr message)].

Definition safe_json_response `{FloatText} (data : pyobj) : outcome json :=
  try_except (json_dumps true data)
    (fun e =>
       json_dumps false
         (error_dict ("JSON serialization error: " ++ str_exc e)%string)).

(** [d[key]] and [d.get(key)] on the entries of a dictionary. *)
Fixpoint dict_lookup (key : string) (entries : list (pyobj * pyobj))
    : option pyobj :=
  match entries with
  | [] => None
  | (PyStr k, v) :: rest =>
      if String.eqb k key then Some v else dict_lookup key rest
  | _ :: rest => dict_lookup key rest
  end.

(** The Tigo client as the tools see it: what each call gives or raises.
    [connect] is entering [with TigoClient(USERNAME, PASSWORD) as client];
    the fields after [list_systems] are the rest of each tool's [try]
    block, from its first data call to its [response_data]. *)
Record client := {
  connect : outcome unit;
  get_user : outcome pyobj;
  list_systems : outcome pyobj;
  system_details : Z -> outcome pyobj;
  current_production : Z -> outcome pyobj;
  performance_analysis : Z -> Z -> outcome pyobj;
  historical_data : Z -> Z -> string -> outcome pyobj;
  system_alerts : Z -> Z -> outcome pyobj;
  system_health : Z -> outcome pyobj;
  maintenance_insights : Z -> Q -> outcome pyobj
}.

(** [get_primary_system_id]: the id of the first system, [None] when
    there is none or when anything raises. *)
Definition get_primary_system_id (c : client) : option Z :=
  match list_systems c with
  | Returned (PyDict entries) =>
      match get (dict_lookup "systems" entries) (PyList []) with
      | PyList (PyDict first :: _) =>
          match dict_lookup "system_id" first with
          | Some (PyInt id) => Some id
          | _ => None
          end
      | _ => None
      end
  | _ => None
  end.

(** The opening every tool but [fetch_configuration] shares: enter the
    client, settle the system id, answer "No systems found" without one. *)
Definition with_system (c : client) (system_id : option Z)
    (rest : Z -> outcome pyobj) : outcome pyobj :=
  bind (connect c) (fun _ =>
    match system_id with
    | Some id => rest id
    | None =>
        match get_primary_system_id c with
        | Some id => rest id
        | None => Returned (error_dict "No systems found")
        end
    end).

(** The closing every tool shares. *)
Definition respond `{FloatText} (error_prefix : string)
    (body : outcome pyobj) : outcome json :=
  try_except (bind body safe_json_response)
    (fun e => safe_json_response
                (error_dict (error_prefix ++ str_exc e)%string)).

Definition fetch_configuration_body (c : client) : outcome pyobj :=
  bind (connect c) (fun _ =>
  bind (get_user c) (fun user =>
  bind (list_systems c) (fun systems =>
  Returned (PyDict [(PyStr "user", user); (PyStr "systems", systems)])))).

Definition fetch_configuration `{FloatText} (c : client) : outcome json :=
  respond "Error fetching Tigo data: " (fetch_configuration_body c).

Definition get_system_details `{FloatText} (c : client)
    (system_id : option Z) : outcome json :=
  respond "Error fetching system details: "
    (with_system c system_id (system_details c)).

Definition get_current_production `{FloatText} (c : client)
    (system_id : option Z) : outcome json :=
  respond "Error fetching current production: "
    (with_system c system_id (current_production c)).

Definition get_performance_analysis `{FloatText} (c : client)
    (system_id : option Z) (days_back : Z) : outcome json :=
  respond "Error fetching performance analysis: "
    (with_system c system_id (fun id => performance_analysis c id days_back)).

Definition valid_level (level : string) : bool :=
  existsb (String.eqb level) ["minute"; "hour"; "day"].

Definition get_historical_data `{FloatText} (c : client)
    (system_id : option Z) (days_back : Z) (level : string) : outcome json :=
  respond "Error fetching historical data: "
    (with_system c system_id (fun id =>
       if valid_level level
       then historical_data c id days_back level
       else Returned (error_dict "Level must be 'minute', 'hour', or 'day'"))).

Definition get_system_alerts `{FloatText} (c : client)
    (system_id : option Z) (days_back : Z) : outcome json :=
  respond "Error fetching system alerts: "
    (with_system c system_id (fun id => system_alerts c id days_back)).

Definition get_system_health_tool `{FloatText} (c : client)
    (system_id : option Z) : outcome json :=
  respond "Error fetching system health: "
    (with_system c system_id (system_health c)).

Definition get_maintenance_insights_tool `{FloatText} (c : client)
    (system_id : option Z) (threshold_percent : Q) : outcome json :=
  respond "Error fetching maintenance insights: "
    (with_system c system_id (fun id =>
       maintenance_insights c id threshold_percent)).

(** A request to the server: the tool and its arguments. *)
Inductive request : Type :=
| Fetch_Configuration
| Get_System_Details (system_id : option Z)
| Get_Current_Production (system_id : option Z)
| Get_Performance_Analysis (system_id : option Z) (days_back : Z)
| Get_Historical_Data (system_id : option Z) (days_back : Z) (level : string)
| Get_System_Alerts (system_id : option Z) (days_back : Z)
| Get_System_Health (system_id : option Z)
| Get_Maintenance_Insights (system_id : option Z) (threshold_percent : Q).

Definition serve `{FloatText} (c : client) (r : request) : outcome json :=
  match r with
  | Fetch_Configuration => fetch_configuration c
  | Get_System_Details sid => get_system_details c sid
  | Get_Current_Production sid => get_current_production c sid
  | Get_Performance_Analysis sid days => get_performance_analysis c sid days
  | Get_Historical_Data sid days level =>
      get_historical_data c sid days level
  | Get_System_Alerts sid days => get_system_alerts c sid days
  | Get_System_Health sid => get_system_health_tool c sid
  | Get_Maintenance_Insights sid threshold =>
      get_maintenance_insights_tool c sid threshold
  end.

(** Whether a document is an object with an ["error"] member. *)
Definition has_error_field (doc : json) : bool :=
  match doc with
  | JObject members => existsb (fun m => String.eqb (fst m) "error") members
  | _ => false
  end.

(** *** The three analyses, one at a time

    What each analysis appends and what it adds to the score; the plan of
    [get_maintenance_insights] is their concatenation and their sum. *)

Definition active_alerts_of (alerts_data : alerts_response) : list alert :=
  filter is_active (get (alerts alerts_data) []).

Definition panel_items `{FloatText} (underperforming : list panel)
    (threshold_percent : Q) : list maintenance_item :=
  if len underperforming >? 0
  then [panel_item underperforming threshold_percent] else [].

Definition efficiency_items `{FloatText} (avg_efficiency : Q)
    : list maintenance_item :=
  if Qltb avg_efficiency 70 then [efficiency_high_item avg_efficiency]
  else if Qltb avg_efficiency 85 then [efficiency_medium_item avg_efficiency]
  else [].

Definition efficiency_score (avg_efficiency : Q) : Z :=
  if Qltb avg_efficiency 70 then 50
  else if Qltb avg_efficiency 85 then 25
  else 0.

Definition alert_items (active_alerts : list alert) : list maintenance_item :=
  if len active_alerts >? 0 then [alerts_item active_alerts] else [].

(** [[item for item in items if item["category"] == c]] *)
Definition of_category (c : string) (items : list maintenance_item)
    : list maintenance_item :=
  filter (fun item => String.eqb (category item) c) items.

Definition one_panel : panel := {| panel_id := "A1" |}.

Definition active_alert (n : Z) : alert :=
  {| alert_id := n; status := Some "active" |}.

Definition measured (avg_efficiency : Q) : efficiency_metrics :=
  {| average_efficiency_percent := Some avg_efficiency |}.

Definition no_alerts : alerts_response := {| alerts := Some [] |}.

Ltac len_cases :=
  repeat match goal with
  | |- context [len ?xs >? 0] =>
      let H := fresh "Hlen" in
      pose proof (len_nonneg xs);
      destruct (Z.gtb_spec (len xs) 0) as [H|H]
  end.

Ltac band_cases :=
  repeat match goal with
  | |- context [Qltb ?x ?c] =>
      let E := fresh "Eband" in destruct (Qltb x c) eqn:E
  end.

Ltac analysis_cases :=
  repeat match goal with
  | |- context [if len ?xs >? 0 then _ else _] => destruct (len xs >? 0)
  | |- context [if Qltb ?x ?c then _ else _] => destruct (Qltb x c)
  end.

Section Insights.

Context `{FloatText}.
Variables (sid : Z) (now : string) (threshold_percent : Q).
Variables (underperforming : list panel) (efficiency : efficiency_metrics).
Variable alerts_data : alerts_response.

Let result :=
  get_maintenance_insights sid now threshold_percent underperforming
    efficiency alerts_data.
Let avg_efficiency := get (average_efficiency_percent efficiency) 100%Q.
Let active_alerts := active_alerts_of alerts_data.

Lemma maintenance_items_eq :
  maintenance_items result =
  panel_items underperforming threshold_percent
  ++ efficiency_items avg_efficiency
  ++ alert_items active_alerts.
Proof.
  unfold result, get_maintenance_insights, panel_items, efficiency_items,
    alert_items, active_alerts, avg_efficiency, active_alerts_of.
  analysis_cases; reflexivity.
Qed.

Lemma priority_score_eq :
  priority_score result =
  len underperforming * 10 + efficiency_score avg_efficiency
  + len active_alerts * 15.
Proof.
  unfold result, get_maintenance_insights, efficiency_score,
    active_alerts, avg_efficiency, active_alerts_of.
  len_cases; band_cases; cbv beta iota zeta delta [priority_score]; lia.
Qed.

Lemma overall_priority_eq :
  overall_maintenance_priority result =
  if priority_score result >? 100 then "Critical"
  else if priority_score result >? 50 then "High"
  else if priority_score result >? 25 then "Medium"
  else "Low".
Proof.
  unfold result, get_maintenance_insights.
  analysis_cases; reflexivity.
Qed.

Lemma next_recommended_action_eq :
  next_recommended_action result =
  match maintenance_items result with
  | first :: _ => recommendation first
  | [] => rec_continue_monitoring
  end.
Proof.
  unfold result, get_maintenance_insights.
  analysis_cases; reflexivity.
Qed.

Lemma efficiency_score_range :
  0 <= efficiency_score avg_efficiency <= 50.
Proof.
  unfold efficiency_score.
  band_cases; lia.
Qed.

Lemma of_category_efficiency :
  of_category "System Efficiency" (maintenance_items result) =
  efficiency_items avg_efficiency.
Proof.
  rewrite maintenance_items_eq.
  unfold of_category, panel_items, efficiency_items, alert_items.
  analysis_cases; reflexivity.
Qed.

Lemma band_70_85 (x : Q) : Qltb x 70 = true -> Qltb x 85 = true.
Proof.
  intros Hx. apply (Qltb_trans x 70 85); [exact Hx | reflexivity].
Qed.

(** C3, as the code has it.  The cutoff of the efficiency analysis is the
    constant 85, not [threshold_percent]: below 85 exactly one System
    Efficiency item is in the plan, the High one worth 50 below 70 and the
    Medium one worth 25 from 70 on. *)
Theorem efficiency_item_exactly_one :
  (avg_efficiency < 85)%Q ->
  of_category "System Efficiency" (maintenance_items result) =
    [if Qltb avg_efficiency 70 then efficiency_high_item avg_efficiency
     else efficiency_medium_item avg_efficiency]
  /\ priority_score result =
       len underperforming * 10 + efficiency_score avg_efficiency
       + len active_alerts * 15
  /\ ((avg_efficiency < 70)%Q ->
        map priority (of_category "System Efficiency"
                        (maintenance_items result)) = ["High"]
        /\ efficiency_score avg_efficiency = 50)
  /\ ((70 <= avg_efficiency)%Q ->
        map priority (of_category "System Efficiency"
                        (maintenance_items result)) = ["Medium"]
        /\ efficiency_score avg_efficiency = 25).
Proof.
  intros Hlow. apply Qltb_lt in Hlow.
  rewrite of_category_efficiency, priority_score_eq.
  unfold efficiency_items, efficiency_score. rewrite Hlow.
  destruct (Qltb avg_efficiency 70) eqn:E70;
    (split; [reflexivity|]); (split; [reflexivity|]); split.
  - intros _. split; reflexivity.
  - intros Hge. apply Qltb_ge in Hge. congruence.
  - intros Hlt. apply Qltb_lt in Hlt. congruence.
  - intros _. split; reflexivity.
Qed.

(** From 85 on the efficiency analysis adds nothing. *)
Lemma efficiency_item_none :
  (85 <= avg_efficiency)%Q ->
  of_category "System Efficiency" (maintenance_items result) = []
  /\ efficiency_score avg_efficiency = 0.
Proof.
  intros Hge. apply Qltb_ge in Hge.
  rewrite of_category_efficiency.
  unfold efficiency_items, efficiency_score.
  destruct (Qltb avg_efficiency 70) eqn:E70.
  - apply band_70_85 in E70. congruence.
  - rewrite Hge. split; reflexivity.
Qed.

(** C6.  The overall priority is read off the score: above 100 Critical,
    51 to 100 High, 26 to 50 Medium, 25 and below Low. *)
Theorem overall_priority_thresholds :
  (100 < priority_score result ->
   overall_maintenance_priority result = "Critical")
  /\ (51 <= priority_score result <= 100 ->
      overall_maintenance_priority result = "High")
  /\ (26 <= priority_score result <= 50 ->
      overall_maintenance_priority result = "Medium")
  /\ (priority_score result <= 25 ->
      overall_maintenance_priority result = "Low").
Proof.
  rewrite overall_priority_eq.
  destruct (Z.gtb_spec (priority_score result) 100);
    destruct (Z.gtb_spec (priority_score result) 50);
    destruct (Z.gtb_spec (priority_score result) 25);
    repeat split; intros; try reflexivity; lia.
Qed.

Lemma categories_in_order :
  map category (maintenance_items result) =
  (if len underperforming >? 0 then ["Panel Performance"] else [])
  ++ (if Qltb avg_efficiency 85 then ["System Efficiency"] else [])
  ++ (if len active_alerts >? 0 then ["System Alerts"] else []).
Proof.
  rewrite maintenance_items_eq.
  unfold panel_items, efficiency_items, alert_items.
  destruct (Qltb avg_efficiency 70) eqn:E70.
  - rewrite (band_70_85 _ E70). analysis_cases; reflexivity.
  - analysis_cases; reflexivity.
Qed.

Lemma items_empty_iff :
  next_recommended_action result = rec_continue_monitoring
  <-> maintenance_items result = [].
Proof.
  rewrite next_recommended_action_eq, maintenance_items_eq.
  unfold panel_items, efficiency_items, alert_items.
  analysis_cases; simpl; split; intros Heq;
    try reflexivity; discriminate Heq.
Qed.

(** C8.  The next recommended action is the recommendation of the first
    item of the plan, the items standing in the order of the analyses
    (panels, efficiency, alerts) and not by priority: one underperforming
    panel and an efficiency of 50 put a Medium item first and its
    recommendation is the one returned.  It is the continue-monitoring
    text exactly when the plan is empty. *)
Theorem next_action_is_first_item :
  next_recommended_action result =
    match maintenance_items result with
    | first :: _ => recommendation first
    | [] => rec_continue_monitoring
    end
  /\ (next_recommended_action result = rec_continue_monitoring
      <-> maintenance_items result = [])
  /\ map category (maintenance_items result) =
       (if len underperforming >? 0 then ["Panel Performance"] else [])
       ++ (if Qltb avg_efficiency 85 then ["System Efficiency"] else [])
       ++ (if len active_alerts >? 0 then ["System Alerts"] else [])
  /\ (let r := get_maintenance_insights sid now threshold_percent
                 [one_panel] (measured 50) no_alerts in
      map priority (maintenance_items r) = ["Medium"; "High"]
      /\ map recommendation (maintenance_items r) =
           [rec_inspect_panels; rec_full_inspection]
      /\ next_recommended_action r = rec_inspect_panels
      /\ next_recommended_action r <> rec_full_inspection).
Proof.
  split; [apply next_recommended_action_eq|].
  split; [apply items_empty_iff|].
  split; [apply categories_in_order|].
  cbv zeta. repeat split. discriminate.
Qed.

End Insights.

(** *** The score as the counts grow *)

Section Monotone.

Context `{FloatText}.
Variables (sid : Z) (now : string) (threshold_percent : Q).
Variable efficiency : efficiency_metrics.

(** C7.  With the efficiency and the threshold held fixed, a plan for at
    least as many underperforming panels and at least as many active
    alerts has at least as high a score; in particular the score does not
    fall when either count alone grows. *)
Theorem priority_score_monotone
    (fewer_panels more_panels : list panel)
    (fewer_alerts more_alerts : alerts_response) :
  len fewer_panels <= len more_panels ->
  len (active_alerts_of fewer_alerts) <= len (active_alerts_of more_alerts) ->
  priority_score
    (get_maintenance_insights sid now threshold_percent fewer_panels
       efficiency fewer_alerts)
  <= priority_score
       (get_maintenance_insights sid now threshold_percent more_panels
          efficiency more_alerts).
Proof.
  intros Hpanels Halerts. rewrite !priority_score_eq. lia.
Qed.

End Monotone.

Definition raise_alerts (n : nat) : alerts_response :=
  {| alerts := Some (map (fun k => active_alert (Z.of_nat k)) (seq 1 n)) |}.

Lemma priority_score_monotone_witness :
  priority_score
    (get_maintenance_insights (H := one_decimal_text) 1 "" 85
       [one_panel] (measured 90) (raise_alerts 1))
  <= priority_score
       (get_maintenance_insights (H := one_decimal_text) 1 "" 85
          [one_panel; one_panel] (measured 90) (raise_alerts 3)).
Proof.
  apply (priority_score_monotone (H := one_decimal_text) 1 "" 85 (measured 90)
           [one_panel] [one_panel; one_panel] (raise_alerts 1) (raise_alerts 3)).
  - vm_compute. discriminate.
  - vm_compute. discriminate.
Defined.

Lemma efficiency_item_exactly_one_witness :
  of_category "System Efficiency"
    (maintenance_items
       (get_maintenance_insights (H := one_decimal_text) 1 "" 85
          [] (measured 75) no_alerts))
  = [efficiency_medium_item (H := one_decimal_text) 75]
  /\ priority_score
       (get_maintenance_insights (H := one_decimal_text) 1 "" 85
          [] (measured 75) no_alerts) = 25.
Proof.
  destruct (efficiency_item_exactly_one (H := one_decimal_text) 1 "" 85
              [] (measured 75) no_alerts) as [Hitem [Hscore _]].
  - reflexivity.
  - split; [exact Hitem | exact Hscore].
Defined.

(** C3, as the specification words it, fails: with a threshold of 90 an
    efficiency of 87 is below the threshold, and the plan has neither of
    the two System Efficiency items. *)
Lemma efficiency_item_counterexample :
  Qltb 87 90 = true
  /\ of_category "System Efficiency"
       (maintenance_items
          (get_maintenance_insights (H := one_decimal_text) 1 "" 90
             [] (measured 87) no_alerts)) = [].
Proof.
  split; reflexivity.
Qed.

(** C4, as the specification words it, fails: with no underperforming
    panels, no alerts and an efficiency of 90 against a threshold of 85
    the plan of [server.py] is empty, it has no Preventive Maintenance
    item. *)
Lemma quiet_system_counterexample :
  Qle_bool 85 90 = true
  /\ maintenance_items
       (get_maintenance_insights (H := one_decimal_text) 1 "" 85
          [] (measured 90) no_alerts) = []
  /\ List.length
       (maintenance_items
          (get_maintenance_insights (H := one_decimal_text) 1 "" 85
             [] (measured 90) no_alerts)) <> 1%nat.
Proof.
  repeat split. discriminate.
Qed.

(** A threshold below 85 does not move the cutoff either: efficiency 82
    is above a threshold of 80 and still earns the Medium item and 25. *)
Lemma low_threshold_still_scores :
  priority_score
    (get_maintenance_insights (H := one_decimal_text) 1 "" 80
       [] (measured 82) no_alerts) = 25.
Proof. reflexivity. Qed.

(** *** The health tool of [server.py] is another classifier

    Its table has other cutoffs and no fallback recommendation: one alert
    and an efficiency of 75 is Good here (Fair in the packaged server),
    and a Good system without alerts gets no recommendation at all. *)

Lemma standalone_health_other_table :
  overall_health
    (get_system_health 1 "" None (raise_alerts 1) (measured 75)) = "Good"
  /\ Package.classify_health_spec 1 75 = "Fair".
Proof. split; reflexivity. Qed.

Lemma standalone_health_no_fallback :
  recommendations
    (get_system_health 1 "" None no_alerts (measured 75)) = [].
Proof. reflexivity. Qed.

(** *** No tool lets an exception out *)

(** The code inside a tool's [try], up to the value that is handed to
    [safe_json_response], and the text its handler puts before [str(e)]. *)
Definition try_block (c : client) (r : request) : outcome pyobj :=
  match r with
  | Fetch_Configuration => fetch_configuration_body c
  | Get_System_Details sid => with_system c sid (system_details c)
  | Get_Current_Production sid => with_system c sid (current_production c)
  | Get_Performance_Analysis sid days =>
      with_system c sid (fun id => performance_analysis c id days)
  | Get_Historical_Data sid days level =>
      with_system c sid (fun id =>
        if valid_level level
        then historical_data c id days level
        else Returned (error_dict "Level must be 'minute', 'hour', or 'day'"))
  | Get_System_Alerts sid days =>
      with_system c sid (fun id => system_alerts c id days)
  | Get_System_Health sid => with_system c sid (system_health c)
  | Get_Maintenance_Insights sid threshold =>
      with_system c sid (fun id => maintenance_insights c id threshold)
  end.

Definition error_prefix (r : request) : string :=
  match r with
  | Fetch_Configuration => "Error fetching Tigo data: "
  | Get_System_Details _ => "Error fetching system details: "
  | Get_Current_Production _ => "Error fetching current production: "
  | Get_Performance_Analysis _ _ => "Error fetching performance analysis: "
  | Get_Historical_Data _ _ _ => "Error fetching historical data: "
  | Get_System_Alerts _ _ => "Error fetching system alerts: "
  | Get_System_Health _ => "Error fetching system health: "
  | Get_Maintenance_Insights _ _ => "Error fetching maintenance insights: "
  end.

(** A client whose every call fails, and a dictionary [json.dumps]
    refuses (a list as a key). *)
Definition unreachable : exception :=
  {| exc_class := "ConnectionError"; exc_message := "host unreachable" |}.

Definition offline : client :=
  {| connect := Raised unreachable;
     get_user := Raised unreachable;
     list_systems := Raised unreachable;
     system_details := fun _ => Raised unreachable;
     current_production := fun _ => Raised unreachable;
     performance_analysis := fun _ _ => Raised unreachable;
     historical_data := fun _ _ _ => Raised unreachable;
     system_alerts := fun _ _ => Raised unreachable;
     system_health := fun _ => Raised unreachable;
     maintenance_insights := fun _ _ => Raised unreachable |}.

Definition bad_key : pyobj := PyDict [(PyList [], PyInt 1)].

Section Tools.

Context `{FloatText}.

Lemma error_dict_dumps (use_str : bool) (message : string) :
  json_dumps use_str (error_dict message) =
  Returned (JObject [("error", JString message)]).
Proof. destruct use_str; reflexivity. Qed.

Lemma safe_json_response_cases (data : pyobj) :
  match json_dumps true data with
  | Returned doc => safe_json_response data = Returned doc
  | Raised e =>
      safe_json_response data =
      Returned (JObject [("error",
                  JString ("JSON serialization error: " ++ str_exc e))])
  end.
Proof.
  unfold safe_json_response, try_except.
  destruct (json_dumps true data) as [doc|e].
  - reflexivity.
  - apply error_dict_dumps.
Qed.

Lemma safe_json_response_returns (data : pyobj) :
  exists doc, safe_json_response data = Returned doc.
Proof.
  pose proof (safe_json_response_cases data) as Hcases.
  destruct (json_dumps true data) as [doc|e]; eexists; exact Hcases.
Qed.

Lemma safe_json_response_error (message : string) :
  safe_json_response (error_dict message) =
  Returned (JObject [("error", JString message)]).
Proof.
  unfold safe_json_response. rewrite error_dict_dumps. reflexivity.
Qed.

Lemma respond_returns (prefix : string) (body : outcome pyobj) :
  exists doc, respond prefix body = Returned doc.
Proof.
  unfold respond. destruct body as [data|e]; simpl.
  - destruct (safe_json_response_returns data) as [doc Hdoc].
    exists doc. rewrite Hdoc. reflexivity.
  - rewrite safe_json_response_error. eexists. reflexivity.
Qed.

Lemma respond_raised (prefix : string) (e : exception) :
  respond prefix (Raised e) =
  Returned (JObject [("error", JString (prefix ++ str_exc e))]).
Proof.
  unfold respond. simpl. apply safe_json_response_error.
Qed.

Lemma respond_returned_error (prefix message : string) :
  respond prefix (Returned (error_dict message)) =
  Returned (JObject [("error", JString message)]).
Proof.
  unfold respond, bind, try_except.
  rewrite safe_json_response_error. reflexivity.
Qed.

Lemma serve_eq (c : client) (r : request) :
  serve c r = respond (error_prefix r) (try_block c r).
Proof. destruct r; reflexivity. Qed.

(** C10.  Whatever the client does, every tool of [server.py] returns a
    JSON document and raises nothing; when its [try] block raised [e] the
    document is the object whose ["error"] member is the tool's message
    followed by [str(e)].  [safe_json_response] always returns: the
    document of its argument, or, when [json.dumps] raised, the object
    whose ["error"] member reports the serialization error. *)
Theorem tools_return_json (c : client) (r : request) :
  (exists doc, serve c r = Returned doc)
  /\ (forall e, try_block c r = Raised e ->
      exists doc,
        serve c r = Returned doc
        /\ doc = JObject [("error", JString (error_prefix r ++ str_exc e))]
        /\ has_error_field doc = true)
  /\ (forall data, exists doc,
        safe_json_response data = Returned doc
        /\ (forall e, json_dumps true data = Raised e ->
            doc = JObject [("error",
                    JString ("JSON serialization error: " ++ str_exc e))]
            /\ has_error_field doc = true))
  /\ serve offline r =
       Returned (JObject [("error",
                   JString (error_prefix r ++ "host unreachable"))])
  /\ safe_json_response bad_key =
       Returned (JObject [("error",
                   JString "JSON serialization error: keys must be str, int, float, bool or None, not list")]).
Proof.
  rewrite !serve_eq.
  split; [apply respond_returns|].
  split.
  { intros e He. rewrite He, respond_raised.
    eexists. split; [reflexivity|]. split; reflexivity. }
  split.
  { intros data. pose proof (safe_json_response_cases data) as Hcases.
    destruct (json_dumps true data) as [doc|e].
    - exists doc. split; [exact Hcases|]. intros e He. discriminate He.
    - eexists. split; [exact Hcases|]. intros e' He'.
      injection He' as <-. split; reflexivity. }
  split.
  - destruct r as [|sid|sid|sid d|sid d l|sid d|sid|sid t];
      try destruct sid; reflexivity.
  - reflexivity.
Qed.

End Tools.

(** *** More about the maintenance plan of [server.py] *)

Lemma active_filter_idem (xs : list alert) :
  filter is_active (filter is_active xs) = filter is_active xs.
Proof.
  induction xs as [|a rest IH]; simpl; [reflexivity|].
  destruct (is_active a) eqn:Ea; simpl; [rewrite Ea, IH|]; auto.
Qed.

Lemma efficiency_score_antitone (lower higher : Q) :
  (lower <= higher)%Q -> efficiency_score higher <= efficiency_score lower.
Proof.
  intros Hle. unfold efficiency_score.
  destruct (Qltb higher 70) eqn:H70.
  - apply Qltb_lt in H70.
    assert (Hl : Qltb lower 70 = true)
      by (apply Qltb_lt; apply (Qle_lt_trans _ higher); assumption).
    rewrite Hl. lia.
  - destruct (Qltb higher 85) eqn:H85.
    + apply Qltb_lt in H85.
      assert (Hl : Qltb lower 85 = true)
        by (apply Qltb_lt; apply (Qle_lt_trans _ higher); assumption).
      rewrite Hl. destruct (Qltb lower 70); lia.
    + destruct (Qltb lower 70); destruct (Qltb lower 85); lia.
Qed.

Lemma firstn_In {A : Type} (n : nat) (xs : list A) (x : A) :
  In x (firstn n xs) -> In x xs.
Proof.
  revert xs. induction n as [|n IH]; intros [|y ys] Hin; simpl in *;
    try contradiction.
  destruct Hin as [->|Hin]; [left; reflexivity | right; apply IH, Hin].
Qed.

Section Plan.

Context `{FloatText}.
Variables (sid : Z) (now : string) (threshold_percent : Q).
Variables (underperforming : list panel) (efficiency : efficiency_metrics).
Variable alerts_data : alerts_response.

Let result :=
  get_maintenance_insights sid now threshold_percent underperforming
    efficiency alerts_data.
Let avg_efficiency := get (average_efficiency_percent efficiency) 100%Q.
Let active_alerts := active_alerts_of alerts_data.

(** The threshold is written into the text of the panel item and decides
    nothing else: with the same panels, efficiency and alerts, two
    thresholds give the same score, overall priority, next action and
    summary, and items of the same categories, priorities and
    recommendations. *)
Theorem threshold_only_in_panel_text (other_threshold : Q) :
  let other :=
    get_maintenance_insights sid now other_threshold underperforming
      efficiency alerts_data in
  priority_score result = priority_score other
  /\ overall_maintenance_priority result = overall_maintenance_priority other
  /\ next_recommended_action result = next_recommended_action other
  /\ summary result = summary other
  /\ map category (maintenance_items result) =
       map category (maintenance_items other)
  /\ map priority (maintenance_items result) =
       map priority (maintenance_items other)
  /\ map recommendation (maintenance_items result) =
       map recommendation (maintenance_items other)
  /\ map affected_panels (maintenance_items result) =
       map affected_panels (maintenance_items other).
Proof.
  unfold result, get_maintenance_insights.
  analysis_cases; cbv zeta; repeat split; try reflexivity;
    unfold summary, panel_item; simpl;
    destruct (len underperforming >? 3); reflexivity.
Qed.

(** The score is 0 exactly when the plan has no item, and then (and only
    then) the next action is the continue-monitoring text. *)
Theorem score_zero_iff_no_items :
  (priority_score result = 0 <-> maintenance_items result = [])
  /\ (priority_score result = 0 <->
      next_recommended_action result = rec_continue_monitoring)
  /\ 0 <= priority_score result.
Proof.
  assert (Hcore : priority_score result = 0 <-> maintenance_items result = []).
  { unfold result. rewrite priority_score_eq, maintenance_items_eq.
    unfold panel_items, alert_items, efficiency_items, efficiency_score.
    pose proof (len_nonneg underperforming).
    pose proof (len_nonneg (active_alerts_of alerts_data)).
    destruct (Z.gtb_spec (len underperforming) 0);
      destruct (Z.gtb_spec (len (active_alerts_of alerts_data)) 0);
      band_cases; simpl;
      split; intros Hx; try discriminate Hx; try reflexivity; lia. }
  split; [exact Hcore|]. split.
  - rewrite Hcore. unfold result. symmetry. apply items_empty_iff.
  - unfold result. rewrite priority_score_eq.
    pose proof (len_nonneg underperforming).
    pose proof (len_nonneg (active_alerts_of alerts_data)).
    pose proof (efficiency_score_range efficiency). lia.
Qed.

(** Alerts that are not active, and an absent ["alerts"] key, leave no
    trace: the whole response is the one computed from the active alerts
    alone. *)
Theorem inactive_alerts_ignored :
  result =
  get_maintenance_insights sid now threshold_percent underperforming
    efficiency {| alerts := Some (active_alerts_of alerts_data) |}.
Proof.
  unfold result, get_maintenance_insights, active_alerts_of. simpl.
  rewrite active_filter_idem. reflexivity.
Qed.

(** The summary counts what the plan holds: at most three items, the
    High ones among them; a panel item lists the ids of the first five
    underperforming panels, an alert item carries the first three active
    alerts. *)
Theorem plan_summary_bounds :
  total_issues (summary result) = len (maintenance_items result)
  /\ 0 <= critical_issues (summary result) <= total_issues (summary result)
  /\ total_issues (summary result) <= 3
  /\ (forall item ids,
        In item (maintenance_items result) ->
        affected_panels item = Some ids ->
        ids = map panel_id (firstn 5 underperforming)
        /\ (List.length ids <= 5)%nat)
  /\ (forall item details,
        In item (maintenance_items result) ->
        alert_details item = Some details ->
        details = firstn 3 active_alerts
        /\ (List.length details <= 3)%nat
        /\ Forall (fun a => is_active a = true) details).
Proof.
  assert (Htotal : total_issues (summary result) = len (maintenance_items result)).
  { unfold result, get_maintenance_insights. analysis_cases; reflexivity. }
  assert (Hcrit : critical_issues (summary result) =
                  len (filter (fun item => String.eqb (priority item) "High")
                         (maintenance_items result))).
  { unfold result, get_maintenance_insights. analysis_cases; reflexivity. }
  split; [exact Htotal|]. split.
  { rewrite Htotal, Hcrit. unfold len. split; [lia|].
    apply inj_le. apply filter_length_le. }
  split.
  { rewrite Htotal. unfold result. rewrite maintenance_items_eq.
    unfold panel_items, efficiency_items, alert_items.
    analysis_cases; unfold len; simpl; lia. }
  split.
  - intros item ids Hin Hids. unfold result in Hin.
    rewrite maintenance_items_eq in Hin.
    unfold panel_items, efficiency_items, alert_items in Hin.
    repeat match type of Hin with
    | context [if ?b then _ else _] => destruct b
    end; cbn [In app] in Hin;
    repeat match goal with
    | Hor : _ \/ _ |- _ => destruct Hor
    | Hf : False |- _ => destruct Hf
    end; subst item;
    cbv beta iota delta [affected_panels panel_item efficiency_high_item
                         efficiency_medium_item alerts_item] in Hids;
    try discriminate Hids;
    injection Hids as <-;
    (split; [reflexivity|]);
    change (List.length (map panel_id (firstn 5 underperforming)) <= 5)%nat;
    rewrite length_map; apply firstn_le_length.
  - intros item details Hin Hdetails. unfold result in Hin.
    rewrite maintenance_items_eq in Hin.
    unfold panel_items, efficiency_items, alert_items in Hin.
    repeat match type of Hin with
    | context [if ?b then _ else _] => destruct b
    end; cbn [In app] in Hin;
    repeat match goal with
    | Hor : _ \/ _ |- _ => destruct Hor
    | Hf : False |- _ => destruct Hf
    end; subst item;
    cbv beta iota delta [alert_details panel_item efficiency_high_item
                         efficiency_medium_item alerts_item] in Hdetails;
    try discriminate Hdetails;
    injection Hdetails as <-;
    (split; [reflexivity|]);
    (split;
     [ change (List.length (firstn 3 active_alerts) <= 3)%nat;
       apply firstn_le_length
     | change (Forall (fun a => is_active a = true)
                 (firstn 3 (filter is_active (get (alerts alerts_data) []))));
       apply Forall_forall; intros a Ha; apply firstn_In in Ha;
       apply filter_In in Ha; tauto ]).
Qed.

(** The overall priority comes from the score, not from the items: one
    active alert on an otherwise healthy system makes a plan whose only
    item is High, which the summary counts as critical, and whose overall
    priority is Low. *)
Theorem single_alert_is_low_overall :
  underperforming = [] ->
  (85 <= avg_efficiency)%Q ->
  len active_alerts = 1 ->
  priority_score result = 15
  /\ overall_maintenance_priority result = "Low"
  /\ map priority (maintenance_items result) = ["High"]
  /\ critical_issues (summary result) = 1
  /\ next_recommended_action result = rec_address_alerts.
Proof.
  intros Hpanels Hge Hone. subst underperforming.
  apply Qltb_ge in Hge.
  assert (H70 : Qltb avg_efficiency 70 = false).
  { destruct (Qltb avg_efficiency 70) eqn:E70; [|reflexivity].
    apply band_70_85 in E70. congruence. }
  unfold result, get_maintenance_insights.
  fold avg_efficiency. rewrite H70, Hge.
  change (filter is_active (get (alerts alerts_data) [])) with active_alerts.
  rewrite Hone. repeat split.
Qed.

End Plan.

Section Efficiency.

Context `{FloatText}.
Variables (sid : Z) (now : string) (threshold_percent : Q).
Variables (underperforming : list panel) (alerts_data : alerts_response).

(** With the panels and the alerts held fixed, a higher efficiency never
    raises the score. *)
Theorem priority_score_antitone_in_efficiency
    (lower higher : efficiency_metrics) :
  (get (average_efficiency_percent lower) 100 <=
   get (average_efficiency_percent higher) 100)%Q ->
  priority_score
    (get_maintenance_insights sid now threshold_percent underperforming
       higher alerts_data)
  <= priority_score
       (get_maintenance_insights sid now threshold_percent underperforming
          lower alerts_data).
Proof.
  intros Hle. rewrite !priority_score_eq.
  pose proof (efficiency_score_antitone _ _ Hle). lia.
Qed.

End Efficiency.

Lemma priority_score_antitone_in_efficiency_witness :
  priority_score
    (get_maintenance_insights (H := one_decimal_text) 1 "" 85
       [one_panel] (measured 90) no_alerts)
  <= priority_score
       (get_maintenance_insights (H := one_decimal_text) 1 "" 85
          [one_panel] (measured 60) no_alerts).
Proof.
  apply (priority_score_antitone_in_efficiency (H := one_decimal_text) 1 "" 85
           [one_panel] no_alerts (measured 60) (measured 90)).
  discriminate.
Defined.

Lemma single_alert_is_low_overall_witness :
  overall_maintenance_priority
    (get_maintenance_insights (H := one_decimal_text) 1 "" 85
       [] (measured 90) (raise_alerts 1)) = "Low"
  /\ map priority
       (maintenance_items
          (get_maintenance_insights (H := one_decimal_text) 1 "" 85
             [] (measured 90) (raise_alerts 1))) = ["High"].
Proof.
  destruct (single_alert_is_low_overall (H := one_decimal_text) 1 "" 85
              [] (measured 90) (raise_alerts 1))
    as [_ [Hlow [Hhigh _]]].
  - reflexivity.
  - discriminate.
  - reflexivity.
  - split; [exact Hlow | exact Hhigh].
Defined.

(** *** More about the health tool of [server.py] *)

Definition msg_review_alerts : string :=
  "Review and address active system alerts".
Definition msg_below_optimal : string :=
  "System efficiency is below optimal - consider maintenance check".
Definition msg_optimal : string := "System is performing optimally".

Section StandaloneHealth.

Variables (sid : Z) (now : string) (summary_status : option string).
Variables (alerts_data : alerts_response) (efficiency : efficiency_metrics).

Let result := get_system_health sid now summary_status alerts_data efficiency.
Let alert_count := len (get (alerts alerts_data) []).
Let efficiency_percent := get (average_efficiency_percent efficiency) 0%Q.

Lemma standalone_health_eq :
  overall_health result =
  if (alert_count =? 0) && Qltb 80 efficiency_percent then "Excellent"
  else if (alert_count <=? 2) && Qltb 70 efficiency_percent then "Good"
  else if (alert_count <=? 5) && Qltb 60 efficiency_percent then "Fair"
  else "Needs Attention".
Proof. reflexivity. Qed.

Lemma standalone_recommendations_eq :
  recommendations result =
  (if alert_count >? 0 then [msg_review_alerts] else [])
  ++ (if Qltb efficiency_percent 70 then [msg_below_optimal] else [])
  ++ (if (alert_count =? 0) && Qltb 80 efficiency_percent
      then [msg_optimal] else []).
Proof.
  unfold result, get_system_health.
  fold alert_count. fold efficiency_percent.
  destruct (alert_count =? 0); destruct (Qltb 80 efficiency_percent);
    destruct (alert_count <=? 2); destruct (Qltb 70 efficiency_percent);
    destruct (alert_count <=? 5); destruct (Qltb 60 efficiency_percent);
    destruct (alert_count >? 0); destruct (Qltb efficiency_percent 70);
    reflexivity.
Qed.

Ltac health_facts :=
  pose proof (len_nonneg (get (alerts alerts_data) [])) as Hnonneg;
  fold alert_count in Hnonneg;
  assert (H67 : (60 < 70)%Q) by reflexivity;
  assert (H78 : (70 < 80)%Q) by reflexivity;
  assert (H68 : (60 < 80)%Q) by reflexivity.

Ltac health_cases :=
  health_facts;
  destruct (Z.eqb_spec alert_count 0);
  destruct (Z.leb_spec alert_count 2);
  destruct (Z.leb_spec alert_count 5);
  destruct (Qltb 80 efficiency_percent) eqn:E80;
  destruct (Qltb 70 efficiency_percent) eqn:E70;
  destruct (Qltb 60 efficiency_percent) eqn:E60;
  rewrite ?Qltb_lt, ?Qltb_ge in *.

Ltac recommendation_cases :=
  health_facts;
  destruct (Z.eqb_spec alert_count 0);
  destruct (Z.gtb_spec alert_count 0);
  destruct (Qltb 80 efficiency_percent) eqn:E80;
  destruct (Qltb efficiency_percent 70) eqn:E07;
  rewrite ?Qltb_lt, ?Qltb_ge in *.

Lemma standalone_excellent_iff :
  overall_health result = "Excellent" <->
  (alert_count =? 0) && Qltb 80 efficiency_percent = true.
Proof.
  rewrite standalone_health_eq.
  destruct ((alert_count =? 0) && Qltb 80 efficiency_percent).
  - split; reflexivity.
  - repeat match goal with
    | |- context [if ?b then _ else _] => destruct b
    end; split; discriminate.
Qed.

Ltac order_clash :=
  exfalso; try lia;
  apply (Qlt_irrefl efficiency_percent);
  eauto using Qlt_le_trans, Qle_lt_trans, Qlt_trans.

(** The four statuses of the health tool of [server.py] as conditions
    that exclude one another: the rows of its table are nested, so the
    status is Needs Attention exactly when there are more than five
    alerts or the efficiency is 60 or less. *)
Theorem standalone_health_bands :
  (overall_health result = "Excellent" <->
   alert_count = 0 /\ (80 < efficiency_percent)%Q)
  /\ (overall_health result = "Good" <->
      alert_count <= 2 /\ (70 < efficiency_percent)%Q
      /\ (0 < alert_count \/ (efficiency_percent <= 80)%Q))
  /\ (overall_health result = "Fair" <->
      alert_count <= 5 /\ (60 < efficiency_percent)%Q
      /\ (2 < alert_count \/ (efficiency_percent <= 70)%Q))
  /\ (overall_health result = "Needs Attention" <->
      5 < alert_count \/ (efficiency_percent <= 60)%Q).
Proof.
  rewrite standalone_health_eq.
  health_cases; simpl;
    repeat match goal with
    | |- _ /\ _ => split
    | |- _ <-> _ => split; intros Hx
    end;
    try discriminate Hx; try reflexivity;
    repeat match goal with
    | Hc : _ /\ _ |- _ => destruct Hc
    end;
    try lia; try assumption;
    try (left; (lia || assumption)); try (right; (lia || assumption));
    try solve [order_clash];
    try (destruct Hx as [Hx|Hx]; solve [order_clash]);
    try match goal with
    | Hc : _ \/ _ |- _ => destruct Hc; solve [order_clash]
    end.
Qed.

(** Its recommendations can be empty: they are exactly when there is no
    alert and the efficiency is between 70 and 80; an Excellent system
    gets the one positive message and nothing else. *)
Theorem standalone_health_recommendations :
  (recommendations result = [] <->
   alert_count = 0
   /\ (70 <= efficiency_percent)%Q /\ (efficiency_percent <= 80)%Q)
  /\ (overall_health result = "Excellent" ->
      recommendations result = [msg_optimal])
  /\ (In msg_review_alerts (recommendations result) <-> 0 < alert_count)
  /\ (In msg_below_optimal (recommendations result) <->
      (efficiency_percent < 70)%Q).
Proof.
  rewrite standalone_excellent_iff, standalone_recommendations_eq.
  recommendation_cases; simpl;
    repeat match goal with
    | |- _ /\ _ => split
    | |- _ <-> _ => split; intros Hx
    | |- _ -> _ => intros Hx
    end;
    try discriminate Hx; try reflexivity;
    repeat match goal with
    | Hc : _ /\ _ |- _ => destruct Hc
    | Hc : _ \/ _ |- _ => destruct Hc
    | Hc : False |- _ => destruct Hc
    end;
    try discriminate;
    try lia; try assumption; auto;
    try solve [order_clash].
Qed.

End StandaloneHealth.

Section AcrossTools.

Context `{FloatText}.
Variables (sid : Z) (now : string) (summary_status : option string).
Variables (threshold_percent : Q) (alerts_data : alerts_response).

(** The two tools read the same client data differently.  The health tool
    counts every alert, the maintenance tool the active ones only: a
    system whose alerts are all resolved is never Excellent and is told
    to review its alerts, while its maintenance plan (no panels,
    efficiency of 85 or more) is empty. *)
Theorem resolved_alerts_count_for_health (avg : Q) :
  get (alerts alerts_data) [] <> [] ->
  active_alerts_of alerts_data = [] ->
  (85 <= avg)%Q ->
  overall_health
    (get_system_health sid now summary_status alerts_data (measured avg))
    <> "Excellent"
  /\ In msg_review_alerts
       (recommendations
          (get_system_health sid now summary_status alerts_data
             (measured avg)))
  /\ maintenance_items
       (get_maintenance_insights sid now threshold_percent []
          (measured avg) alerts_data) = []
  /\ next_recommended_action
       (get_maintenance_insights sid now threshold_percent []
          (measured avg) alerts_data) = rec_continue_monitoring.
Proof.
  intros Hsome Hnone Hge.
  assert (Hcount : 0 < len (get (alerts alerts_data) [])).
  { unfold len. destruct (get (alerts alerts_data) []);
      [congruence | simpl; lia]. }
  split.
  { rewrite standalone_health_eq.
    destruct (Z.eqb_spec (len (get (alerts alerts_data) [])) 0); [lia|].
    simpl. repeat match goal with
    | |- context [if ?b then _ else _] => destruct b
    end; discriminate. }
  split.
  { rewrite standalone_recommendations_eq.
    destruct (Z.gtb_spec (len (get (alerts alerts_data) [])) 0); [|lia].
    left. reflexivity. }
  assert (Hitems : maintenance_items
            (get_maintenance_insights sid now threshold_percent []
               (measured avg) alerts_data) = []).
  { rewrite maintenance_items_eq. rewrite Hnone.
    unfold panel_items, efficiency_items, alert_items. simpl.
    apply Qltb_ge in Hge.
    destruct (Qltb avg 70) eqn:E70;
      [apply band_70_85 in E70; congruence|].
    rewrite Hge. reflexivity. }
  split; [exact Hitems|].
  apply items_empty_iff. exact Hitems.
Qed.

(** An efficiency the client does not report is read as 0 by the health
    tool, which then answers Needs Attention, and as 100 by the
    maintenance tool, which then adds no efficiency item and no points. *)
Theorem missing_efficiency_read_two_ways
    (underperforming : list panel) (efficiency : efficiency_metrics) :
  average_efficiency_percent efficiency = None ->
  overall_health
    (get_system_health sid now summary_status alerts_data efficiency)
    = "Needs Attention"
  /\ of_category "System Efficiency"
       (maintenance_items
          (get_maintenance_insights sid now threshold_percent
             underperforming efficiency alerts_data)) = []
  /\ priority_score
       (get_maintenance_insights sid now threshold_percent
          underperforming efficiency alerts_data)
     = len underperforming * 10 + len (active_alerts_of alerts_data) * 15.
Proof.
  intros Hnone. split.
  { rewrite standalone_health_eq, Hnone. cbn [get].
    change (Qltb 80 0) with false. change (Qltb 70 0) with false.
    change (Qltb 60 0) with false. rewrite !andb_false_r. reflexivity. }
  split.
  { rewrite of_category_efficiency, Hnone. reflexivity. }
  rewrite priority_score_eq, Hnone. simpl. unfold efficiency_score. simpl. lia.
Qed.

End AcrossTools.

Definition resolved_alert : alert :=
  {| alert_id := 7; status := Some "resolved" |}.

Lemma resolved_alerts_count_for_health_witness :
  overall_health
    (get_system_health 1 "" None {| alerts := Some [resolved_alert] |}
       (measured 95)) <> "Excellent"
  /\ maintenance_items
       (get_maintenance_insights (H := one_decimal_text) 1 "" 85 []
          (measured 95) {| alerts := Some [resolved_alert] |}) = [].
Proof.
  destruct (resolved_alerts_count_for_health (H := one_decimal_text) 1 ""
              None 85 {| alerts := Some [resolved_alert] |} 95)
    as [Hhealth [_ [Hplan _]]].
  - discriminate.
  - reflexivity.
  - discriminate.
  - split; [exact Hhealth | exact Hplan].
Defined.

Lemma missing_efficiency_read_two_ways_witness :
  overall_health
    (get_system_health 1 "" None no_alerts
       {| average_efficiency_percent := None |}) = "Needs Attention"
  /\ priority_score
       (get_maintenance_insights (H := one_decimal_text) 1 "" 85 []
          {| average_efficiency_percent := None |} no_alerts) = 0.
Proof.
  destruct (missing_efficiency_read_two_ways (H := one_decimal_text) 1 ""
              None 85 no_alerts [] {| average_efficiency_percent := None |})
    as [Hhealth [_ Hscore]].
  - reflexivity.
  - split; [exact Hhealth | exact Hscore].
Defined.

(** *** The alert summary of [get_system_alerts] *)

(** ["alert_summary"] of the response of [get_system_alerts]. *)
Record alert_summary := {
  total_alerts : Z;
  summary_active_alerts : Z;
  recent_alerts : list alert
}.

Definition alert_summary_of (alerts_data : alerts_response) : alert_summary :=
  {| total_alerts := len (get (alerts alerts_data) []);
     summary_active_alerts :=
       len (filter is_active (get (alerts alerts_data) []));
     recent_alerts := slice_to 5 (get (alerts alerts_data) []) |}.

Lemma filter_all_iff {A : Type} (f : A -> bool) (xs : list A) :
  List.length (filter f xs) = List.length xs <-> Forall (fun x => f x = true) xs.
Proof.
  induction xs as [|x rest IH]; simpl.
  - split; [constructor | reflexivity].
  - pose proof (filter_length_le f rest) as Hle.
    destruct (f x) eqn:Ex; simpl; split; intros Hx.
    + constructor; [exact Ex | apply IH; lia].
    + inversion Hx; subst. f_equal. apply IH. assumption.
    + lia.
    + inversion Hx; subst. congruence.
Qed.

(** The active alerts are among all alerts, as many as all exactly when
    every alert is active; the recent alerts are the first five, all of
    them when there are five or fewer. *)
Theorem alert_summary_counts (alerts_data : alerts_response) :
  let s := alert_summary_of alerts_data in
  0 <= summary_active_alerts s <= total_alerts s
  /\ (summary_active_alerts s = total_alerts s <->
      Forall (fun a => is_active a = true) (get (alerts alerts_data) []))
  /\ len (recent_alerts s) = Z.min 5 (total_alerts s)
  /\ (total_alerts s <= 5 ->
      recent_alerts s = get (alerts alerts_data) [])
  /\ (exists later, get (alerts alerts_data) [] = recent_alerts s ++ later).
Proof.
  cbv zeta. unfold alert_summary_of, len, slice_to.
  cbn [total_alerts summary_active_alerts recent_alerts].
  set (all := get (alerts alerts_data) []).
  pose proof (filter_length_le is_active all) as Hle.
  split; [lia|]. split.
  { rewrite <- filter_all_iff. lia. }
  split.
  { rewrite length_firstn. lia. }
  split.
  { intros Hfew. apply firstn_all2. lia. }
  exists (skipn 5 all). symmetry. apply firstn_skipn.
Qed.

(** *** The opening of the tools *)

(** The system id a request names, for the tools that take one. *)
Definition requested_system (r : request) : option (option Z) :=
  match r with
  | Fetch_Configuration => None
  | Get_System_Details sid | Get_Current_Production sid
  | Get_Performance_Analysis sid _ | Get_Historical_Data sid _ _
  | Get_System_Alerts sid _ | Get_System_Health sid
  | Get_Maintenance_Insights sid _ => Some sid
  end.

(** A client that connects to an account without systems. *)
Definition no_account : client :=
  {| connect := Returned tt;
     get_user := Returned PyNone;
     list_systems := Returned (PyDict [(PyStr "systems", PyList [])]);
     system_details := fun _ => Returned PyNone;
     current_production := fun _ => Returned PyNone;
     performance_analysis := fun _ _ => Returned PyNone;
     historical_data := fun _ _ _ => Returned PyNone;
     system_alerts := fun _ _ => Returned PyNone;
     system_health := fun _ => Returned PyNone;
     maintenance_insights := fun _ _ => Returned PyNone |}.

Section Opening.

Context `{FloatText}.
Variable c : client.

(** A tool called without a system id on an account that has no system
    (or whose system list cannot be read) answers the "No systems found"
    document; for [get_historical_data] that is so whatever the level. *)
Theorem no_systems_found (r : request) :
  connect c = Returned tt ->
  get_primary_system_id c = None ->
  requested_system r = Some None ->
  serve c r = Returned (JObject [("error", JString "No systems found")]).
Proof.
  intros Hconnect Hnone Hreq.
  destruct r as [|sid|sid|sid d|sid d l|sid d|sid|sid t];
    simpl in Hreq; try discriminate Hreq;
    injection Hreq as ->;
    unfold serve, get_system_details, get_current_production,
      get_performance_analysis, get_historical_data, get_system_alerts,
      get_system_health_tool, get_maintenance_insights_tool,
      with_system;
    rewrite Hconnect, Hnone; simpl; apply respond_returned_error.
Qed.

(** [get_historical_data] with a level other than minute, hour or day
    answers the level error document without asking for any data, once
    the client is entered and the system is settled. *)
Theorem invalid_level_refused
    (system_id : option Z) (days_back : Z) (level : string) (id : Z) :
  connect c = Returned tt ->
  system_id = Some id \/
    (system_id = None /\ get_primary_system_id c = Some id) ->
  valid_level level = false ->
  get_historical_data c system_id days_back level =
  Returned (JObject [("error",
              JString "Level must be 'minute', 'hour', or 'day'")]).
Proof.
  intros Hconnect Hsystem Hlevel.
  unfold get_historical_data, with_system. rewrite Hconnect. simpl.
  destruct Hsystem as [->|[-> ->]]; rewrite Hlevel;
    apply respond_returned_error.
Qed.

End Opening.

Lemma no_systems_found_witness :
  serve (H := one_decimal_text) no_account (Get_System_Health None) =
  Returned (JObject [("error", JString "No systems found")]).
Proof.
  apply (no_systems_found (H := one_decimal_text) no_account
           (Get_System_Health None)); reflexivity.
Defined.

Lemma invalid_level_refused_witness :
  get_historical_data (H := one_decimal_text) no_account (Some 42) 30 "week" =
  Returned (JObject [("error",
              JString "Level must be 'minute', 'hour', or 'day'")]).
Proof.
  apply (invalid_level_refused (H := one_decimal_text) no_account
           (Some 42) 30 "week" 42).
  - reflexivity.
  - left. reflexivity.
  - reflexivity.
Defined.

End Standalone.

(** * The quiet system in both servers *)

(** C4, as the code has it.  With no underperforming panels, no active
    alerts and an efficiency of at least 85, [server.py] returns an empty
    plan, score 0, overall priority Low and the continue-monitoring text.
    The single Low "Preventive Maintenance" entry belongs to the packaged
    server, which has no score: it is the whole list when there are no
    alerts and the efficiency is not below [threshold_percent]. *)
Theorem quiet_system_plan `{FloatText} {arith : FloatArith}
    (sid : Z) (now : string) (threshold : Q) :
  (forall (efficiency : Standalone.efficiency_metrics)
          (alerts_data : Standalone.alerts_response),
     Standalone.active_alerts_of alerts_data = [] ->
     (85 <= get (Standalone.average_efficiency_percent efficiency) 100%Q)%Q ->
     let plan := Standalone.get_maintenance_insights sid now threshold []
                   efficiency alerts_data in
     Standalone.maintenance_items plan = []
     /\ Standalone.priority_score plan = 0
     /\ Standalone.overall_maintenance_priority plan = "Low"
     /\ Standalone.next_recommended_action plan =
          Standalone.rec_continue_monitoring)
  /\ (forall (info : Package.system_info) (summ : Package.summary),
       get (Package.recent_alerts_count info) 0 = 0 ->
       (threshold <=
        Package.simple_efficiency (get (Package.last_power_dc summ) 0%Q)
          (get (Package.power_rating info) 1%Q))%Q ->
       let plan := Package.get_maintenance_insights sid now info summ
                     threshold in
       Package.insights_recommendations plan = [Package.preventive_item]
       /\ map Package.component (Package.insights_recommendations plan) =
            ["Preventive Maintenance"]
       /\ map Package.priority (Package.insights_recommendations plan) =
            ["Low"]).
Proof.
  split.
  - intros efficiency alerts_data Hquiet Hge plan.
    assert (Hitems : Standalone.maintenance_items plan = []).
    { unfold plan. rewrite Standalone.maintenance_items_eq.
      rewrite Hquiet.
      unfold Standalone.panel_items, Standalone.efficiency_items,
        Standalone.alert_items.
      apply Qltb_ge in Hge.
      destruct (Qltb _ 70) eqn:E70;
        [apply Standalone.band_70_85 in E70; congruence|].
      rewrite Hge. reflexivity. }
    assert (Hscore : Standalone.priority_score plan = 0).
    { unfold plan. rewrite Standalone.priority_score_eq.
      rewrite Hquiet. unfold Standalone.efficiency_score.
      apply Qltb_ge in Hge.
      destruct (Qltb _ 70) eqn:E70;
        [apply Standalone.band_70_85 in E70; congruence|].
      rewrite Hge. reflexivity. }
    split; [exact Hitems|]. split; [exact Hscore|]. split.
    + unfold plan. rewrite Standalone.overall_priority_eq.
      fold plan. rewrite Hscore. reflexivity.
    + unfold plan. rewrite Standalone.next_recommended_action_eq.
      fold plan. rewrite Hitems. reflexivity.
  - intros info summ Halerts Hge plan.
    assert (Hrecs : Package.insights_recommendations plan =
                    [Package.preventive_item]).
    { unfold plan, Package.get_maintenance_insights. simpl.
      apply Qltb_ge in Hge. rewrite Hge, Halerts. reflexivity. }
    rewrite Hrecs. repeat split.
Qed.

Lemma quiet_system_plan_witness :
  Standalone.maintenance_items
    (Standalone.get_maintenance_insights (H := one_decimal_text) 1 "" 85 []
       (Standalone.measured 90) Standalone.no_alerts) = []
  /\ Package.insights_recommendations
       (Package.get_maintenance_insights (H := one_decimal_text)
          (arith := binary64) 1 ""
          (Package.snapshot_info 0 (Some 1000%Q))
          (Package.snapshot_summary 900) 85) = [Package.preventive_item].
Proof.
  destruct (quiet_system_plan (H := one_decimal_text) (arith := binary64)
              1 "" 85)
    as [Hstandalone Hpackage].
  split.
  - apply (Hstandalone (Standalone.measured 90) Standalone.no_alerts).
    + reflexivity.
    + discriminate.
  - apply (Hpackage (Package.snapshot_info 0 (Some 1000%Q))
             (Package.snapshot_summary 900)).
    + reflexivity.
    + vm_compute. discriminate.
Defined.

(** * The rest of the packaged server *)

Module PackageServer.

Abbreviation outcome := Standalone.outcome.
Abbreviation Returned := Standalone.Returned.
Abbreviation Raised := Standalone.Raised.
Abbreviation bind := Standalone.bind.
Abbreviation exception := Standalone.exception.

(** [raise Exception(message)] and [raise ValueError(message)] *)
Definition Exception (message : string) : exception :=
  {| Standalone.exc_class := "Exception";
     Standalone.exc_message := message |}.

Definition ValueError (message : string) : exception :=
  {| Standalone.exc_class := "ValueError";
     Standalone.exc_message := message |}.

(** ** [safe_json_serialize] *)

(** The objects [safe_json_serialize] tells apart.  [VObject] is any
    other object: its [isoformat()] when it has the attribute, and its
    [str()]. *)
Inductive value : Type :=
| VNone
| VBool (b : bool)
| VInt (n : Z)
| VFloat (x : Q)
| VStr (s : string)
| VList (items : list value)
| VTuple (items : list value)
| VDict (entries : list (value * value))
| VObject (class_name : string) (isoformat : option (outcome string))
    (text : outcome string).

(** A comprehension whose element expression may raise: the elements in
    order, stopping at the first exception. *)
Definition traverse {A B : Type} (f : A -> outcome B)
    : list A -> outcome (list B) :=
  fix each (xs : list A) : outcome (list B) :=
    match xs with
    | [] => Returned []
    | x :: rest =>
        bind (f x) (fun y =>
        bind (each rest) (fun ys => Returned (y :: ys)))
    end.

Fixpoint safe_json_serialize (obj : value) : outcome value :=
  match obj with
  | VNone | VBool _ | VInt _ | VFloat _ | VStr _ => Returned obj
  | VDict entries =>
      bind (traverse
              (fun kv : value * value =>
                 bind (safe_json_serialize (snd kv)) (fun v =>
                 Returned (fst kv, v)))
              entries)
        (fun serialized => Returned (VDict serialized))
  | VList items | VTuple items =>
      bind (traverse safe_json_serialize items)
        (fun serialized => Returned (VList serialized))
  | VObject _ (Some isoformat) _ =>
      bind isoformat (fun s => Returned (VStr s))
  | VObject _ None text =>
      bind text (fun s => Returned (VStr s))
  end.

(** A value whose every value position (the keys of dictionaries are left
    aside) holds [None], a bool, a number, a string, a list or a
    dictionary. *)
Fixpoint json_ready (v : value) : bool :=
  match v with
  | VNone | VBool _ | VInt _ | VFloat _ | VStr _ => true
  | VList items => forallb json_ready items
  | VDict entries => forallb (fun kv => json_ready (snd kv)) entries
  | VTuple _ | VObject _ _ _ => false
  end.

(** A value whose every object, in a value position, can be written:
    its [isoformat()], or without one its [str()], returns. *)
Fixpoint renders (v : value) : bool :=
  match v with
  | VNone | VBool _ | VInt _ | VFloat _ | VStr _ => true
  | VList items | VTuple items => forallb renders items
  | VDict entries => forallb (fun kv => renders (snd kv)) entries
  | VObject _ (Some (Returned _)) _ => true
  | VObject _ (Some (Raised _)) _ => false
  | VObject _ None (Returned _) => true
  | VObject _ None (Raised _) => false
  end.

(** The keys of a dictionary, the number of entries of a list. *)
Definition keys (v : value) : list value :=
  match v with
  | VDict entries => map fst entries
  | _ => []
  end.

Definition size (v : value) : nat :=
  match v with
  | VDict entries => List.length entries
  | VList items | VTuple items => List.length items
  | _ => 0%nat
  end.

Section ValueInduction.

Variable P : value -> Prop.
Hypothesis HNone : P VNone.
Hypothesis HBool : forall b, P (VBool b).
Hypothesis HInt : forall n, P (VInt n).
Hypothesis HFloat : forall x, P (VFloat x).
Hypothesis HStr : forall s, P (VStr s).
Hypothesis HList : forall items, Forall P items -> P (VList items).
Hypothesis HTuple : forall items, Forall P items -> P (VTuple items).
Hypothesis HDict :
  forall entries, Forall (fun kv => P (snd kv)) entries -> P (VDict entries).
Hypothesis HObject : forall c iso text, P (VObject c iso text).

Fixpoint value_induction (v : value) : P v :=
  match v with
  | VNone => HNone
  | VBool b => HBool b
  | VInt n => HInt n
  | VFloat x => HFloat x
  | VStr s => HStr s
  | VList items =>
      HList items
        ((fix all (xs : list value) : Forall P xs :=
            match xs with
            | [] => Forall_nil P
            | x :: rest => Forall_cons x (value_induction x) (all rest)
            end) items)
  | VTuple items =>
      HTuple items
        ((fix all (xs : list value) : Forall P xs :=
            match xs with
            | [] => Forall_nil P
            | x :: rest => Forall_cons x (value_induction x) (all rest)
            end) items)
  | VDict entries =>
      HDict entries
        ((fix all (xs : list (value * value))
            : Forall (fun kv => P (snd kv)) xs :=
            match xs with
            | [] => Forall_nil _
            | kv :: rest =>
                Forall_cons kv (value_induction (snd kv)) (all rest)
            end) entries)
  | VObject c iso text => HObject c iso text
  end.

End ValueInduction.

Lemma traverse_returned {A B : Type} (f : A -> outcome B)
    (xs : list A) (ys : list B) :
  traverse f xs = Returned ys <-> Forall2 (fun x y => f x = Returned y) xs ys.
Proof.
  revert ys. induction xs as [|x rest IH]; intros ys; simpl.
  - split.
    + intros Heq. injection Heq as <-. constructor.
    + intros Hall. inversion Hall. reflexivity.
  - destruct (f x) as [y|e] eqn:Ex; simpl.
    + destruct (traverse f rest) as [ys'|e] eqn:Erest; simpl.
      * split.
        -- intros Heq. injection Heq as <-. constructor; [exact Ex|].
           apply IH. reflexivity.
        -- intros Hall. inversion Hall as [|x0 y0 r0 ys0 Hx Hrest]; subst.
           apply IH in Hrest. rewrite Ex in Hx.
           injection Hx as <-. injection Hrest as <-. reflexivity.
      * split; [discriminate|].
        intros Hall. inversion Hall as [|x0 y0 r0 ys0 Hx Hrest]; subst.
        apply IH in Hrest. discriminate Hrest.
    + split; [discriminate|].
      intros Hall. inversion Hall as [|x0 y0 r0 ys0 Hx Hrest]; subst.
      rewrite Ex in Hx. discriminate Hx.
Qed.

Lemma serialize_list_eq (items : list value) :
  safe_json_serialize (VList items) =
  bind (traverse safe_json_serialize items)
    (fun serialized => Returned (VList serialized)).
Proof. reflexivity. Qed.

Lemma serialize_tuple_eq (items : list value) :
  safe_json_serialize (VTuple items) =
  bind (traverse safe_json_serialize items)
    (fun serialized => Returned (VList serialized)).
Proof. reflexivity. Qed.

Lemma serialize_dict_eq (entries : list (value * value)) :
  safe_json_serialize (VDict entries) =
  bind (traverse
          (fun kv : value * value =>
             bind (safe_json_serialize (snd kv)) (fun v =>
             Returned (fst kv, v)))
          entries)
    (fun serialized => Returned (VDict serialized)).
Proof. reflexivity. Qed.

Lemma bind_returned {A B : Type} (m : outcome A) (k : A -> outcome B) (b : B) :
  bind m k = Returned b <-> exists a, m = Returned a /\ k a = Returned b.
Proof.
  destruct m as [a|e]; simpl; split.
  - intros Hk. exists a. split; [reflexivity | exact Hk].
  - intros [a' [Ha Hk]]. injection Ha as <-. exact Hk.
  - discriminate.
  - intros [a' [Ha _]]. discriminate Ha.
Qed.

Lemma traverse_returns_iff {A B : Type} (f : A -> outcome B) (xs : list A) :
  (exists ys, traverse f xs = Returned ys) <->
  Forall (fun x => exists y, f x = Returned y) xs.
Proof.
  induction xs as [|x rest IH]; simpl.
  - split; [constructor | intros _; eexists; reflexivity].
  - split.
    + intros [ys Hys]. apply bind_returned in Hys.
      destruct Hys as [y [Hy Hrest]]. apply bind_returned in Hrest.
      destruct Hrest as [ys' [Hys' _]].
      constructor; [exists y; exact Hy | apply IH; exists ys'; exact Hys'].
    + intros Hall. inversion Hall as [|x0 r0 [y Hy] Hrest]; subst.
      apply IH in Hrest. destruct Hrest as [ys Hys].
      exists (y :: ys). rewrite Hy. simpl. rewrite Hys. reflexivity.
Qed.

Lemma Forall2_diagonal {A : Type} (R : A -> A -> Prop) (xs : list A) :
  Forall (fun x => R x x) xs -> Forall2 R xs xs.
Proof.
  induction 1; constructor; assumption.
Qed.

Lemma Forall2_transfer {A B : Type} (R : A -> B -> Prop)
    (P : A -> Prop) (Q : B -> Prop) (xs : list A) (ys : list B) :
  (forall x y, P x -> R x y -> Q y) ->
  Forall P xs -> Forall2 R xs ys -> Forall Q ys.
Proof.
  intros Hstep Hall Hrel. revert Hall.
  induction Hrel as [|x y xs ys Hxy Hrest IH]; intros Hall.
  - constructor.
  - inversion Hall; subst. constructor; [eapply Hstep; eauto | auto].
Qed.

Lemma serialize_ready_identity (v : value) :
  json_ready v = true -> safe_json_serialize v = Returned v.
Proof.
  induction v as [| | | | |items IH|items IH|entries IH|c iso text]
    using value_induction; intros Hready;
    try reflexivity; try discriminate Hready.
  - rewrite serialize_list_eq.
    assert (Hitems : traverse safe_json_serialize items = Returned items).
    { apply traverse_returned. apply Forall2_diagonal.
      simpl in Hready. rewrite forallb_forall in Hready.
      rewrite Forall_forall in *. intros x Hx. apply IH; auto. }
    rewrite Hitems. reflexivity.
  - rewrite serialize_dict_eq.
    match goal with |- bind (traverse ?g _) _ = _ =>
      assert (Hentries : traverse g entries = Returned entries)
    end.
    { apply traverse_returned. apply Forall2_diagonal.
      simpl in Hready. rewrite forallb_forall in Hready.
      rewrite Forall_forall in *. intros [k x] Hx.
      pose proof (IH (k, x) Hx (Hready (k, x) Hx)) as Hk.
      simpl in *. rewrite Hk. reflexivity. }
    rewrite Hentries. reflexivity.
Qed.

Lemma serialize_result_is_ready (v w : value) :
  safe_json_serialize v = Returned w -> json_ready w = true.
Proof.
  revert w.
  induction v as [| | | | |items IH|items IH|entries IH|c iso text]
    using value_induction; intros w Hw;
    try (injection Hw as <-; reflexivity).
  - rewrite serialize_list_eq in Hw. apply bind_returned in Hw.
    destruct Hw as [ws [Hws Hw]]. injection Hw as <-.
    apply traverse_returned in Hws. simpl. apply forallb_forall.
    apply Forall_forall.
    apply (Forall2_transfer _ _ _ _ _ (fun x y Hx Hxy => Hx y Hxy) IH Hws).
  - rewrite serialize_tuple_eq in Hw. apply bind_returned in Hw.
    destruct Hw as [ws [Hws Hw]]. injection Hw as <-.
    apply traverse_returned in Hws. simpl. apply forallb_forall.
    apply Forall_forall.
    apply (Forall2_transfer _ _ _ _ _ (fun x y Hx Hxy => Hx y Hxy) IH Hws).
  - rewrite serialize_dict_eq in Hw. apply bind_returned in Hw.
    destruct Hw as [ws [Hws Hw]]. injection Hw as <-.
    apply traverse_returned in Hws. simpl. apply forallb_forall.
    apply Forall_forall.
    refine (Forall2_transfer _ _ _ _ _ _ IH Hws).
    intros [k x] [k' y] Hx Hxy. simpl in *.
    apply bind_returned in Hxy. destruct Hxy as [y' [Hy' Hpair]].
    injection Hpair as _ <-. apply Hx. exact Hy'.
  - destruct iso as [[s|e]|]; simpl in Hw.
    + injection Hw as <-. reflexivity.
    + discriminate Hw.
    + destruct text as [s|e]; simpl in Hw;
        [injection Hw as <-; reflexivity | discriminate Hw].
Qed.

Lemma serialize_keeps_keys (v w : value) :
  safe_json_serialize v = Returned w ->
  keys w = keys v /\ size w = size v.
Proof.
  destruct v as [| | | | |items|items|entries|c iso text]; intros Hw;
    try (injection Hw as <-; split; reflexivity).
  - rewrite serialize_list_eq in Hw. apply bind_returned in Hw.
    destruct Hw as [ws [Hws Hw]]. injection Hw as <-.
    apply traverse_returned in Hws. split; [reflexivity|].
    simpl. symmetry. eapply Forall2_length. exact Hws.
  - rewrite serialize_tuple_eq in Hw. apply bind_returned in Hw.
    destruct Hw as [ws [Hws Hw]]. injection Hw as <-.
    apply traverse_returned in Hws. split; [reflexivity|].
    simpl. symmetry. eapply Forall2_length. exact Hws.
  - rewrite serialize_dict_eq in Hw. apply bind_returned in Hw.
    destruct Hw as [ws [Hws Hw]]. injection Hw as <-.
    apply traverse_returned in Hws. split.
    + simpl. induction Hws as [|[k x] [k' y] r r' Hxy Hrest IH]; simpl.
      * reflexivity.
      * apply bind_returned in Hxy. destruct Hxy as [y' [_ Hpair]].
        injection Hpair as <- _. simpl. f_equal. exact IH.
    + simpl. symmetry. eapply Forall2_length. exact Hws.
  - destruct iso as [[s|e]|]; simpl in Hw.
    + injection Hw as <-. split; reflexivity.
    + discriminate Hw.
    + destruct text as [s|e]; simpl in Hw;
        [injection Hw as <-; split; reflexivity | discriminate Hw].
Qed.

(** What [safe_json_serialize] returns is made of [None], bools, numbers,
    strings, lists and dictionaries only (tuples have become lists, other
    objects strings), and serializing it again changes nothing. *)
Theorem serialize_result_ready (v w : value) :
  safe_json_serialize v = Returned w ->
  json_ready w = true /\ safe_json_serialize w = Returned w.
Proof.
  intros Hw. pose proof (serialize_result_is_ready v w Hw) as Hready.
  split; [exact Hready | apply serialize_ready_identity; exact Hready].
Qed.

(** It never touches the keys of a dictionary and never drops an entry:
    the result of a dictionary has the same keys in the same order, the
    result of a list or tuple the same length; and a value that is
    already made of JSON types comes back unchanged. *)
Theorem serialize_keeps_shape (v w : value) :
  safe_json_serialize v = Returned w ->
  keys w = keys v
  /\ size w = size v
  /\ (json_ready v = true -> w = v).
Proof.
  intros Hw. destruct (serialize_keeps_keys v w Hw) as [Hkeys Hsize].
  split; [exact Hkeys|]. split; [exact Hsize|].
  intros Hready. apply serialize_ready_identity in Hready.
  rewrite Hready in Hw. injection Hw as <-. reflexivity.
Qed.

(** It returns exactly when every object it has to write can be written:
    the only exceptions it lets out are those of an [isoformat()] or a
    [str()]. *)
Theorem serialize_returns_iff_renders (v : value) :
  (exists w, safe_json_serialize v = Returned w) <-> renders v = true.
Proof.
  induction v as [| | | | |items IH|items IH|entries IH|c iso text]
    using value_induction;
    try (split; [reflexivity | intros _; eexists; reflexivity]).
  - rewrite serialize_list_eq. simpl (renders _).
    rewrite forallb_forall, <- Forall_forall. split.
    + intros [w Hw]. apply bind_returned in Hw. destruct Hw as [ws [Hws _]].
      assert (Hall : Forall (fun x => exists y, safe_json_serialize x = Returned y) items)
        by (apply traverse_returns_iff; exists ws; exact Hws).
      rewrite Forall_forall in *. intros x Hx. apply IH; auto.
    + intros Hall.
      assert (Hret : exists ws, traverse safe_json_serialize items = Returned ws).
      { apply traverse_returns_iff. rewrite Forall_forall in *.
        intros x Hx. apply IH; auto. }
      destruct Hret as [ws Hws]. exists (VList ws). rewrite Hws. reflexivity.
  - rewrite serialize_tuple_eq. simpl (renders _).
    rewrite forallb_forall, <- Forall_forall. split.
    + intros [w Hw]. apply bind_returned in Hw. destruct Hw as [ws [Hws _]].
      assert (Hall : Forall (fun x => exists y, safe_json_serialize x = Returned y) items)
        by (apply traverse_returns_iff; exists ws; exact Hws).
      rewrite Forall_forall in *. intros x Hx. apply IH; auto.
    + intros Hall.
      assert (Hret : exists ws, traverse safe_json_serialize items = Returned ws).
      { apply traverse_returns_iff. rewrite Forall_forall in *.
        intros x Hx. apply IH; auto. }
      destruct Hret as [ws Hws]. exists (VList ws). rewrite Hws. reflexivity.
  - rewrite serialize_dict_eq. simpl (renders _).
    rewrite forallb_forall, <- Forall_forall. split.
    + intros [w Hw]. apply bind_returned in Hw. destruct Hw as [ws [Hws _]].
      match type of Hws with traverse ?g _ = _ =>
        assert (Hall : Forall (fun kv => exists y, g kv = Returned y) entries)
          by (apply traverse_returns_iff; exists ws; exact Hws)
      end.
      rewrite Forall_forall in *. intros kv Hkv. apply IH; [exact Hkv|].
      destruct (Hall kv Hkv) as [y Hy]. apply bind_returned in Hy.
      destruct Hy as [x [Hx _]]. exists x. exact Hx.
    + intros Hall.
      match goal with |- exists w, bind (traverse ?g _) _ = _ =>
        assert (Hret : exists ws, traverse g entries = Returned ws)
      end.
      { apply traverse_returns_iff. rewrite Forall_forall in *.
        intros kv Hkv. destruct (proj2 (IH kv Hkv) (Hall kv Hkv)) as [x Hx].
        exists (fst kv, x). rewrite Hx. reflexivity. }
      destruct Hret as [ws Hws]. exists (VDict ws). rewrite Hws. reflexivity.
  - destruct iso as [[s|e]|]; simpl.
    + split; [reflexivity | intros _; eexists; reflexivity].
    + split; [intros [w Hw]; discriminate Hw | discriminate].
    + destruct text as [s|e]; simpl.
      * split; [reflexivity | intros _; eexists; reflexivity].
      * split; [intros [w Hw]; discriminate Hw | discriminate].
Qed.

(** A summary as the client may give it: a timestamp object, a tuple and
    a tuple used as a key. *)
Definition sample_summary : value :=
  VDict [ (VStr "updated", VObject "datetime"
                             (Some (Returned "2024-06-01T12:00:00"))
                             (Returned "2024-06-01 12:00:00"));
          (VStr "location", VTuple [VFloat 47.5; VFloat 8.5]);
          (VTuple [VInt 1; VInt 2], VInt 3) ].

Definition sample_serialized : value :=
  VDict [ (VStr "updated", VStr "2024-06-01T12:00:00");
          (VStr "location", VList [VFloat 47.5; VFloat 8.5]);
          (VTuple [VInt 1; VInt 2], VInt 3) ].

Lemma serialize_result_ready_witness :
  json_ready sample_serialized = true
  /\ safe_json_serialize sample_serialized = Returned sample_serialized.
Proof.
  apply (serialize_result_ready sample_summary sample_serialized).
  reflexivity.
Defined.

Lemma serialize_keeps_shape_witness :
  keys sample_serialized = keys sample_summary
  /\ size sample_serialized = size sample_summary
  /\ (json_ready sample_summary = true -> sample_serialized = sample_summary).
Proof.
  apply (serialize_keeps_shape sample_summary sample_serialized).
  reflexivity.
Defined.

(** ** [initialize_tigo_client] *)

(** [os.getenv] of the two credentials. *)
Record environment := {
  TIGO_USERNAME : option string;
  TIGO_PASSWORD : option string
}.

(** [not s] for a credential: unset or empty. *)
Definition missing (credential : option string) : bool :=
  match credential with
  | None => true
  | Some s => String.eqb s ""
  end.

Section Client.

(** The client object of the [tigo] package. *)
Variable handle : Type.

(** [initialize_tigo_client()], the global [tigo_client] passed in and
    out: the value returned, and the global afterwards.
    [TigoApiClient] is the constructor, which logs in and may raise. *)
Definition initialize_tigo_client (tigo_client : option handle)
    (env : environment) (TigoApiClient : string -> string -> outcome handle)
    : option handle * option handle :=
  match tigo_client with
  | Some _ => (tigo_client, tigo_client)
  | None =>
      let username := TIGO_USERNAME env in
      let password := TIGO_PASSWORD env in
      if missing username || missing password
      then (None, tigo_client)
      else
        match TigoApiClient (get username "") (get password "") with
        | Returned created => (Some created, Some created)
        | Raised _ => (None, tigo_client)
        end
  end.

(** The client is created at most once: the function returns what the
    global holds afterwards, a client that is already there is returned
    without reading the credentials or logging in, and once a call has
    returned a client every later call returns that same client,
    whatever the credentials and the login have become. *)
Theorem client_is_cached (tigo_client : option handle) (env : environment)
    (TigoApiClient : string -> string -> outcome handle) :
  let call := initialize_tigo_client tigo_client env TigoApiClient in
  fst call = snd call
  /\ (tigo_client <> None -> call = (tigo_client, tigo_client))
  /\ (fst call <> None ->
      forall env' TigoApiClient',
        initialize_tigo_client (snd call) env' TigoApiClient' = call)
  /\ (fst call = None -> tigo_client = None /\ snd call = None).
Proof.
  unfold initialize_tigo_client.
  destruct tigo_client as [c|]; cbv zeta.
  - simpl. intuition congruence.
  - destruct (missing (TIGO_USERNAME env) || missing (TIGO_PASSWORD env)).
    + simpl. intuition congruence.
    + destruct (TigoApiClient _ _) as [created|e];
        simpl; intuition congruence.
Qed.

(** Without a username or without a password (unset or empty) there is no
    login attempt and no client, and nothing is remembered: a later call
    with credentials and a working login gets its client. *)
Theorem no_client_without_credentials (env : environment)
    (TigoApiClient : string -> string -> outcome handle) :
  missing (TIGO_USERNAME env) = true \/ missing (TIGO_PASSWORD env) = true ->
  initialize_tigo_client None env TigoApiClient = (None, None)
  /\ (forall env' created,
        missing (TIGO_USERNAME env') = false ->
        missing (TIGO_PASSWORD env') = false ->
        initialize_tigo_client
          (snd (initialize_tigo_client None env TigoApiClient)) env'
          (fun _ _ => Returned created)
        = (Some created, Some created)).
Proof.
  intros Hmissing.
  assert (Hfirst : initialize_tigo_client None env TigoApiClient = (None, None)).
  { unfold initialize_tigo_client. cbv zeta.
    destruct Hmissing as [-> | ->]; rewrite ?orb_true_r; reflexivity. }
  split; [exact Hfirst|].
  intros env' created Huser Hpassword. rewrite Hfirst.
  unfold initialize_tigo_client. cbv zeta. simpl snd.
  rewrite Huser, Hpassword. reflexivity.
Qed.

End Client.

Lemma no_client_without_credentials_witness :
  initialize_tigo_client unit None
    {| TIGO_USERNAME := Some "matt"; TIGO_PASSWORD := Some "" |}
    (fun _ _ => Returned tt) = (None, None).
Proof.
  apply (no_client_without_credentials unit
           {| TIGO_USERNAME := Some "matt"; TIGO_PASSWORD := Some "" |}
           (fun _ _ => Returned tt)).
  right. reflexivity.
Defined.

(** ** The tools: which system they work on *)

Definition KeyError (key : string) : exception :=
  {| Standalone.exc_class := "KeyError";
     Standalone.exc_message := ("'" ++ key ++ "'")%string |}.

(** An entry of [client.get_systems()["systems"]]: its ["system_id"]
    ([None] when the key is absent) and the fields that the health and
    maintenance tools read. *)
Record system_entry := {
  entry_system_id : option Z;
  entry_info : Package.system_info
}.

(** [client.get_systems()]; [systems] is [None] when the key is absent. *)
Record systems_reply := {
  systems : option (list system_entry)
}.

(** The client as the tools use it.  A request that calls [get_systems]
    twice gets the same answer twice.  [get_system_summary] gives the
    summary dictionary as the client built it. *)
Record api := {
  get_systems : outcome systems_reply;
  get_system_summary : Z -> outcome value
}.

(** [d.get(key)] on the entries of a dictionary. *)
Fixpoint lookup (key : string) (entries : list (value * value))
    : option value :=
  match entries with
  | [] => None
  | (VStr k, v) :: rest =>
      if String.eqb k key then Some v else lookup key rest
  | _ :: rest => lookup key rest
  end.

(** A number as the arithmetic and the comparisons take it ([bool] is an
    [int]). *)
Definition number_of (v : value) : option Q :=
  match v with
  | VInt n => Some (inject_Z n)
  | VFloat x => Some x
  | VBool b => Some (if b then 1%Q else 0%Q)
  | _ => None
  end.

(** What the health and maintenance tools read from the summary:
    [summary.get("last_power_dc", 0)].  The summary is a dictionary and
    the power, when present, a number. *)
Definition summary_reading (summary : value) : Package.summary :=
  {| Package.last_power_dc :=
       match summary with
       | VDict entries =>
           match lookup "last_power_dc" entries with
           | Some v => number_of v
           | None => None
           end
       | _ => None
       end |}.

(** "If no system_id provided, get the first available system". *)
Definition resolve_system_id (client : api) (system_id : option Z)
    : outcome Z :=
  match system_id with
  | Some id => Returned id
  | None =>
      bind (get_systems client) (fun reply =>
        match get (systems reply) [] with
        | [] => Raised (Exception "No systems found for this account")
        | first :: _ =>
            match entry_system_id first with
            | Some id => Returned id
            | None => Raised (KeyError "system_id")
            end
        end)
  end.

(** The loop that looks the system up by its id. *)
Definition find_system (reply : systems_reply) (system_id : Z)
    : option system_entry :=
  find (fun system =>
          match entry_system_id system with
          | Some id => id =? system_id
          | None => false
          end)
    (get (systems reply) []).

Definition not_found (system_id : Z) : exception :=
  Exception ("System " ++ str_int system_id ++ " not found")%string.

(** The result of the health tool: the assessment, and under
    ["details"]["summary"] the summary after [safe_json_serialize]. *)
Record health_response := {
  assessment : Package.health_result;
  serialized_summary : value
}.

(** [get_system_health] as a whole; [client] is what
    [initialize_tigo_client()] returned.  The summary is serialized when
    the result dictionary is built, after the classification. *)
Definition get_system_health {arith : FloatArith}
    (client : option api) (system_id : option Z) (now : string)
    : outcome health_response :=
  match client with
  | None => Raised (Exception "Failed to initialize Tigo API client")
  | Some client =>
      bind (resolve_system_id client system_id) (fun system_id =>
      bind (get_system_summary client system_id) (fun summary =>
      bind (get_systems client) (fun systems_info =>
      match find_system systems_info system_id with
      | None => Raised (not_found system_id)
      | Some system_info =>
          let result :=
            Package.get_system_health system_id now
              (entry_info system_info) (summary_reading summary) in
          bind (safe_json_serialize summary) (fun serialized =>
          Returned {| assessment := result;
                      serialized_summary := serialized |})
      end)))
  end.

(** [get_maintenance_insights] as a whole; its result carries no
    summary, and nothing is serialized. *)
Definition get_maintenance_insights `{FloatText} {arith : FloatArith}
    (client : option api) (system_id : option Z) (threshold_percent : Q)
    (now : string) : outcome Package.insights_result :=
  match client with
  | None => Raised (Exception "Failed to initialize Tigo API client")
  | Some client =>
      bind (resolve_system_id client system_id) (fun system_id =>
      bind (get_system_summary client system_id) (fun summary =>
      bind (get_systems client) (fun systems_info =>
      match find_system systems_info system_id with
      | None => Raised (not_found system_id)
      | Some system_info =>
          Returned (Package.get_maintenance_insights system_id now
                      (entry_info system_info) (summary_reading summary)
                      threshold_percent)
      end)))
  end.

(** The result of [get_historical_data]; [data] is the summary after
    [safe_json_serialize]. *)
Record historical_data := {
  historical_system_id : Z;
  days_back : Z;
  level : string;
  start_date : string;
  end_date : string;
  historical_timestamp : string;
  data : value;
  granularity : string;
  period_days : Z;
  data_points : string
}.

(** [get_historical_data] as a whole.  [end_date] and [now] are the two
    readings of the clock, [start_date] is
    [(end_date - timedelta(days=days_back)).isoformat()], which raises
    when the date leaves the calendar. *)
Definition get_historical_data (client : option api) (system_id : option Z)
    (days_back : Z) (level : string)
    (end_date now : string) (start_date : outcome string)
    : outcome historical_data :=
  match client with
  | None => Raised (Exception "Failed to initialize Tigo API client")
  | Some client =>
      if negb (Standalone.valid_level level)
      then Raised (ValueError "Level must be 'minute', 'hour', or 'day'")
      else
        bind (resolve_system_id client system_id) (fun system_id =>
        bind start_date (fun start_date =>
        bind (get_system_summary client system_id) (fun summary =>
        bind (safe_json_serialize summary) (fun serialized =>
        Returned
          {| historical_system_id := system_id;
             days_back := days_back;
             level := level;
             start_date := start_date;
             end_date := end_date;
             historical_timestamp := now;
             data := serialized;
             granularity := level;
             period_days := days_back;
             data_points :=
               ("Requested " ++ level ++ "-level data for "
                ++ str_int days_back ++ " days")%string |}))))
  end.

Definition has_id (system_id : Z) (system : system_entry) : Prop :=
  entry_system_id system = Some system_id.

Lemma find_system_some (reply : systems_reply) (system_id : Z)
    (system : system_entry) :
  find_system reply system_id = Some system <->
  exists before after,
    get (systems reply) [] = before ++ system :: after
    /\ has_id system_id system
    /\ Forall (fun earlier => ~ has_id system_id earlier) before.
Proof.
  unfold find_system, has_id.
  induction (get (systems reply) []) as [|first rest IH]; simpl.
  - split; [discriminate|].
    intros [before [after [Heq _]]]. destruct before; discriminate Heq.
  - destruct (entry_system_id first) as [id|] eqn:Eid.
    + destruct (Z.eqb_spec id system_id) as [->|Hneq].
      * split.
        -- intros Hfound. injection Hfound as <-.
           exists [], rest. repeat split; [exact Eid | constructor].
        -- intros [before [after [Heq [Hid Hbefore]]]].
           destruct before as [|b before]; simpl in Heq.
           ++ injection Heq as -> _. reflexivity.
           ++ injection Heq as <- _. inversion Hbefore; subst.
              contradiction.
      * rewrite IH. split.
        -- intros [before [after [Heq [Hid Hbefore]]]].
           exists (first :: before), after. rewrite Heq.
           repeat split; [exact Hid|].
           constructor; [rewrite Eid; congruence | exact Hbefore].
        -- intros [before [after [Heq [Hid Hbefore]]]].
           destruct before as [|b before]; simpl in Heq.
           ++ injection Heq as -> _. rewrite Eid in Hid. congruence.
           ++ injection Heq as <- ->. inversion Hbefore; subst.
              exists before, after. repeat split; assumption.
    + rewrite IH. split.
      * intros [before [after [Heq [Hid Hbefore]]]].
        exists (first :: before), after. rewrite Heq.
        repeat split; [exact Hid|].
        constructor; [rewrite Eid; discriminate | exact Hbefore].
      * intros [before [after [Heq [Hid Hbefore]]]].
        destruct before as [|b before]; simpl in Heq.
        -- injection Heq as -> _. rewrite Eid in Hid. discriminate Hid.
        -- injection Heq as <- ->. inversion Hbefore; subst.
           exists before, after. repeat split; assumption.
Qed.

Lemma find_system_none (reply : systems_reply) (system_id : Z) :
  find_system reply system_id = None <->
  Forall (fun system => ~ has_id system_id system) (get (systems reply) []).
Proof.
  unfold find_system, has_id.
  induction (get (systems reply) []) as [|first rest IH]; simpl.
  - split; [constructor | reflexivity].
  - destruct (entry_system_id first) as [id|] eqn:Eid.
    + destruct (Z.eqb_spec id system_id) as [->|Hneq].
      * split; [discriminate|].
        intros Hall. inversion Hall; subst. contradiction.
      * rewrite IH. split.
        -- intros Hrest. constructor; [rewrite Eid; congruence | exact Hrest].
        -- intros Hall. inversion Hall; subst. assumption.
    + rewrite IH. split.
      * intros Hrest. constructor; [rewrite Eid; discriminate | exact Hrest].
      * intros Hall. inversion Hall; subst. assumption.
Qed.

(** The lookup takes the first system of the list that carries the id:
    it finds a system exactly when that system has the id and no system
    before it has, and finds none exactly when no system has the id
    (entries without a ["system_id"] are passed over). *)
Theorem find_system_first_match (reply : systems_reply) (system_id : Z) :
  (forall system,
     find_system reply system_id = Some system <->
     exists before after,
       get (systems reply) [] = before ++ system :: after
       /\ has_id system_id system
       /\ Forall (fun earlier => ~ has_id system_id earlier) before)
  /\ (find_system reply system_id = None <->
      Forall (fun system => ~ has_id system_id system)
        (get (systems reply) [])).
Proof.
  split; [intros system; apply find_system_some | apply find_system_none].
Qed.

Section Tools.

Context {arith : FloatArith}.
Variables (client : api) (now : string).


(** What the health tool returns is the classification of a system of
    the account that carries the id worked on, which is the id asked for
    when one was given, together with the serialized summary of that
    id. *)
Theorem health_tool_classifies_requested_system
    (system_id : option Z) (result : health_response) :
  get_system_health (Some client) system_id now = Returned result ->
  exists reply system summary,
    get_systems client = Returned reply
    /\ In system (get (systems reply) [])
    /\ has_id (Package.system_id (assessment result)) system
    /\ get_system_summary client (Package.system_id (assessment result)) =
         Returned summary
    /\ assessment result =
         Package.get_system_health (Package.system_id (assessment result))
           now (entry_info system) (summary_reading summary)
    /\ safe_json_serialize summary = Returned (serialized_summary result)
    /\ (forall id, system_id = Some id ->
         Package.system_id (assessment result) = id).
Proof.
  intros Hresult. unfold get_system_health in Hresult.
  apply bind_returned in Hresult. destruct Hresult as [id [Hid Hresult]].
  apply bind_returned in Hresult. destruct Hresult as [summary [Hsummary Hresult]].
  apply bind_returned in Hresult. destruct Hresult as [reply [Hreply Hresult]].
  destruct (find_system reply id) as [system|] eqn:Efind;
    [|discriminate Hresult].
  cbv zeta in Hresult. apply bind_returned in Hresult.
  destruct Hresult as [serialized [Hserialized Hresult]].
  injection Hresult as <-.
  apply find_system_some in Efind.
  destruct Efind as [before [after [Hlist [Hhas _]]]].
  exists reply, system, summary. simpl.
  split; [exact Hreply|]. split.
  { rewrite Hlist. apply in_or_app. right. left. reflexivity. }
  split; [exact Hhas|]. split; [exact Hsummary|]. split; [reflexivity|].
  split; [exact Hserialized|].
  intros id' ->. simpl in Hid. injection Hid as <-. reflexivity.
Qed.


(** The packaged [get_historical_data] checks the level before anything
    else: with a client at hand a level other than minute, hour or day
    raises the ValueError whatever the account, the clock and the system
    id are.  What it returns echoes the request: a valid level, twice,
    the number of days, twice, the system id when one was given, and as
    data the serialized summary of that system. *)
Theorem level_checked_first
    (system_id : option Z) (days : Z) (level_text : string)
    (end_text : string) (start_text : outcome string) :
  (Standalone.valid_level level_text = false ->
   get_historical_data (Some client) system_id days level_text
     end_text now start_text =
   Raised (ValueError "Level must be 'minute', 'hour', or 'day'"))
  /\ (forall result,
       get_historical_data (Some client) system_id days level_text
         end_text now start_text = Returned result ->
       In level_text ["minute"; "hour"; "day"]
       /\ level result = level_text /\ granularity result = level_text
       /\ days_back result = days /\ period_days result = days
       /\ start_text = Returned (start_date result)
       /\ (exists summary,
            get_system_summary client (historical_system_id result) =
              Returned summary
            /\ safe_json_serialize summary = Returned (data result))
       /\ (forall id, system_id = Some id ->
            historical_system_id result = id)).
Proof.
  unfold get_historical_data. split.
  { intros Hlevel. rewrite Hlevel. reflexivity. }
  intros result Hresult.
  destruct (Standalone.valid_level level_text) eqn:Hlevel; simpl in Hresult;
    [|discriminate Hresult].
  apply bind_returned in Hresult. destruct Hresult as [id [Hid Hresult]].
  apply bind_returned in Hresult. destruct Hresult as [start [Hstart Hresult]].
  apply bind_returned in Hresult.
  destruct Hresult as [summary [Hsummary Hresult]].
  apply bind_returned in Hresult.
  destruct Hresult as [serialized [Hserialized Hresult]].
  injection Hresult as <-. simpl.
  split.
  { unfold Standalone.valid_level in Hlevel. simpl in Hlevel.
    rewrite !orb_true_iff in Hlevel.
    destruct Hlevel as [Hl|[Hl|[Hl|Hl]]]; try discriminate Hl;
      apply String.eqb_eq in Hl; subst; simpl; auto. }
  repeat split; try assumption.
  - exists summary. split; assumption.
  - intros id' ->. simpl in Hid. injection Hid as <-. reflexivity.
Qed.

End Tools.


Definition home : system_entry :=
  {| entry_system_id := Some 42;
     entry_info := Package.snapshot_info 0 (Some 1000%Q) |}.

(** An account with one system, whose summary holds the power and a
    timestamp object. *)
Definition home_summary : value :=
  VDict [ (VStr "last_power_dc", VInt 900);
          (VStr "updated", VObject "datetime"
                             (Some (Returned "2024-06-01T12:00:00"))
                             (Returned "2024-06-01 12:00:00")) ].

Definition home_serialized : value :=
  VDict [ (VStr "last_power_dc", VInt 900);
          (VStr "updated", VStr "2024-06-01T12:00:00") ].

Definition one_home : api :=
  {| get_systems := Returned {| systems := Some [home] |};
     get_system_summary := fun _ => Returned home_summary |}.

Definition home_response : health_response :=
  {| assessment :=
       Package.get_system_health (arith := binary64) 42 ""
         (entry_info home) (summary_reading home_summary);
     serialized_summary := home_serialized |}.


Lemma health_tool_classifies_requested_system_witness :
  exists reply system summary,
    get_systems one_home = Returned reply
    /\ In system (get (systems reply) [])
    /\ has_id 42 system
    /\ get_system_summary one_home 42 = Returned summary
    /\ assessment home_response =
         Package.get_system_health (arith := binary64) 42 ""
           (entry_info system) (summary_reading summary)
    /\ safe_json_serialize summary = Returned home_serialized
    /\ (forall id, Some 42 = Some id -> 42 = id).
Proof.
  apply (health_tool_classifies_requested_system (arith := binary64)
           one_home "" (Some 42) home_response).
  reflexivity.
Defined.

End PackageServer.
